(** * The origin-fetch caching layer of the BTCFi API (github.ts)

    A shallow embedding of the module that fetches manifests and daily
    data files from the raw-file origin, caches them in an LRU store with a
    time to live, revalidates them with entity tags and falls back to stale
    copies when the origin answers with an error.

    Conventions of the embedding.
    - A JavaScript string is a [string] holding the UTF-8 encoding of its
      text; a [Buffer] is a [list byte].  [Buffer.from(text, 'utf8')] and
      [buffer.toString('utf8')] are the two conversions between them.
    - A JavaScript number that the module uses as a status code, a duration
      or a time stamp is a [Z] (milliseconds for durations and the clock).
    - The module state (the three memoised identifiers and the cache), the
      process environment, the clock and the log of the requests sent to
      the origin make up a [World].  An [async] function is a computation
      [M A]: it takes a world and gives a completion (a value or a thrown
      error) and the world it leaves behind.  What was written before
      a [throw] stays written, as in JavaScript.
    - A call is the composition of what it does before its [await] and
      what it does after it, with no other call of the process run in
      between.  The part after the [await] ([handleResponse]) is a
      definition of its own: it takes the entry the lookup found, as the
      JavaScript closure holds it. *)

From Stdlib Require Import Strings.String Strings.Ascii Strings.Byte ZArith List Bool Lia.
From Stdlib Require Import Sorted.
Import ListNotations.
Local Open Scope string_scope.
Local Open Scope Z_scope.

(** ** Values of the language *)

Definition Buffer := list byte.

(** [Buffer.from(text, 'utf8')] *)
Definition Buffer_from (text : string) : Buffer := list_byte_of_string text.

(** [buffer.toString('utf8')] *)
Definition Buffer_toString (b : Buffer) : string := string_of_list_byte b.

(** A string in a condition: [undefined], [null] and the empty string are
    falsy. *)
Definition truthy (v : option string) : bool :=
  match v with
  | Some s => negb (String.eqb s EmptyString)
  | None => false
  end.

(** [v ?? d] *)
Definition nullish {A : Type} (v : option A) (d : A) : A :=
  match v with
  | Some a => a
  | None => d
  end.

(** The errors a call of this module can be rejected with.  The first two
    are the classes the module exports; [PlainError] is [new Error(...)];
    [TypeError] is the engine's, on reading a property of [null];
    [RequestError] is whatever [undici]'s [request] rejects with when no
    response arrives. *)
Inductive JsError : Type :=
| UpstreamNotFoundError (message : string)
| UpstreamUnavailableError (message : string) (statusCode : Z)
| PlainError (message : string)
| TypeError (message : string)
| RequestError (message : string).

(** [error instanceof UpstreamNotFoundError] *)
Definition instanceof_UpstreamNotFoundError (e : JsError) : bool :=
  match e with
  | UpstreamNotFoundError _ => true
  | _ => false
  end.

(** [error instanceof UpstreamUnavailableError] *)
Definition instanceof_UpstreamUnavailableError (e : JsError) : bool :=
  match e with
  | UpstreamUnavailableError _ _ => true
  | _ => false
  end.

(** ** The records of the module *)

Module CacheEntry.
Record t : Type := mk {
  body : Buffer;
  etag : option string;
  lastModified : option string;
  contentType : option string;
  statusCode : option Z
}.

(** [{ ...cached, statusCode }] *)
Definition with_statusCode (c : t) (s : Z) : t :=
  mk (body c) (etag c) (lastModified c) (contentType c) (Some s).
End CacheEntry.

Module GithubFetchMetrics.
Record t : Type := mk {
  cacheHit : bool;
  upstreamStatus : option Z;
  servedStale : bool;
  source : string
}.
End GithubFetchMetrics.

Module FetchOptions.
Record t : Type := mk {
  ttlSeconds : Z;
  source : string;
  path : string
}.
End FetchOptions.

Module FetchResult.
Record t : Type := mk {
  buffer : Buffer;
  etag : option string;
  lastModified : option string;
  contentType : option string;
  metrics : GithubFetchMetrics.t
}.
End FetchResult.

(** ** The cache store

    [lru-cache] is a dependency of the module, not part of it.  The store
    below follows its contract as the module uses it: entries are kept
    from the most to the least recently used; [set] on a full store drops
    the least recently used entry when the key is new; expiry is judged at
    read time from the entry's start and time to live, and an entry set
    with a time to live of 0 never expires (its remaining time is
    [Infinity]).  The store reads a clock that counts from the start of
    the process, so no entry starts at time 0.  A [get] that allows
    stale values returns an expired entry and, unless [noDeleteOnStaleGet]
    is set, drops it from the store; the module does not pass that option,
    and every statement below holds for both of its values. *)
Module LRUCache.
Record Slot : Type := mkSlot {
  key : string;
  value : CacheEntry.t;
  start : Z;
  ttl : Z
}.

Record t : Type := mk {
  max : nat;
  noDeleteOnStaleGet : bool;
  slots : list Slot
}.

Definition with_slots (c : t) (l : list Slot) : t :=
  mk (max c) (noDeleteOnStaleGet c) l.

Definition is_key (k : string) (s : Slot) : bool := String.eqb (key s) k.

Definition find_slot (k : string) (c : t) : option Slot :=
  List.find (is_key k) (slots c).

Definition without (k : string) (l : list Slot) : list Slot :=
  List.filter (fun s => negb (is_key k s)) l.

(** the entry has a time to live and its age exceeds it *)
Definition isStale (now : Z) (s : Slot) : bool :=
  negb (ttl s =? 0) && (ttl s <? now - start s).

(** [cache.peek]-like lookup that changes nothing: the entry stored under
    a key, whatever its age. *)
Definition stored (k : string) (c : t) : option CacheEntry.t :=
  option_map value (find_slot k c).

(** [cache.get(key, { allowStale: true })] *)
Definition get (k : string) (now : Z) (c : t) : option CacheEntry.t * t :=
  match find_slot k c with
  | None => (None, c)
  | Some s =>
      if isStale now s
      then (Some (value s),
            if noDeleteOnStaleGet c then c else with_slots c (without k (slots c)))
      else (Some (value s), with_slots c (s :: without k (slots c)))
  end.

(** What [cache.getRemainingTTL] returns: a number of milliseconds, or
    [Infinity] for an entry that never expires. *)
Inductive Remaining : Type :=
| Finite (ms : Z)
| Infinity.

(** [remaining > 0] *)
Definition is_positive (r : Remaining) : bool :=
  match r with
  | Finite ms => 0 <? ms
  | Infinity => true
  end.

(** [cache.getRemainingTTL(key)] *)
Definition getRemainingTTL (k : string) (now : Z) (c : t) : Remaining :=
  match find_slot k c with
  | None => Finite 0
  | Some s => if ttl s =? 0 then Infinity else Finite (ttl s - (now - start s))
  end.

(** [cache.set(key, value, { ttl })] *)
Definition set (k : string) (v : CacheEntry.t) (ttl_ms : Z) (now : Z) (c : t) : t :=
  let rest := without k (slots c) in
  let kept :=
    match find_slot k c with
    | Some _ => rest
    | None => List.firstn (Nat.pred (max c)) rest
    end in
  with_slots c (mkSlot k v now ttl_ms :: kept).

(** [cache.clear()] *)
Definition clear (c : t) : t := with_slots c [].
End LRUCache.

(** ** The origin *)

Inductive HeaderValue : Type :=
| One (v : string)
| Many (vs : list string).

Module Response.
Record t : Type := mk {
  statusCode : Z;
  headers : list (string * HeaderValue);
  text : string      (* what [response.body.text()] resolves to *)
}.
End Response.

Module Request.
Record t : Type := mk {
  url : string;
  method : string;
  headers : list (string * string)
}.
End Request.

(** What the network does with one request: a response of the origin,
    whatever its status, or no response at all. *)
Inductive Reply : Type :=
| Responded (r : Response.t)
| Failed (message : string).

(** An exchange also takes time. *)
Record Exchange : Type := mkExchange {
  reply : Reply;
  took : Z
}.

Definition Origin := Request.t -> Exchange.

(** ** The world and its computations *)

Record World : Type := mkWorld {
  env : list (string * string);          (* process.env *)
  manifestTtlSeconds : Z;                (* read from the environment at load *)
  dataTtlSeconds : Z;
  cachedOwner : option string;
  cachedRepo : option string;
  cachedBranch : option string;
  cache : LRUCache.t;
  now : Z;                               (* the clock, in milliseconds *)
  sent : list Request.t                  (* requests issued, oldest first *)
}.

Inductive Completion (A : Type) : Type :=
| Return (a : A)
| Throw (e : JsError).
Arguments Return {A} a.
Arguments Throw {A} e.

Definition M (A : Type) : Type := World -> Completion A * World.

Definition ret {A : Type} (a : A) : M A := fun w => (Return a, w).

Definition throw {A : Type} (e : JsError) : M A := fun w => (Throw e, w).

Definition bind {A B : Type} (m : M A) (f : A -> M B) : M B :=
  fun w =>
    match m w with
    | (Return a, w') => f a w'
    | (Throw e, w') => (Throw e, w')
    end.

Notation "x <- m ;; k" := (bind m (fun x => k))
  (at level 61, m at next level, right associativity).
Notation "m ;;; k" := (bind m (fun _ => k))
  (at level 61, right associativity).

(** [process.env[key]] *)
Fixpoint lookup_env (key : string) (e : list (string * string)) : option string :=
  match e with
  | [] => None
  | (k, v) :: rest => if String.eqb k key then Some v else lookup_env key rest
  end.

Definition process_env (key : string) : M (option string) :=
  fun w => (Return (lookup_env key (env w)), w).

Definition read {A : Type} (f : World -> A) : M A := fun w => (Return (f w), w).

Definition set_cachedOwner (v : option string) : M unit :=
  fun w => (Return tt,
            mkWorld (env w) (manifestTtlSeconds w) (dataTtlSeconds w) v (cachedRepo w)
                    (cachedBranch w) (cache w) (now w) (sent w)).

Definition set_cachedRepo (v : option string) : M unit :=
  fun w => (Return tt,
            mkWorld (env w) (manifestTtlSeconds w) (dataTtlSeconds w) (cachedOwner w) v
                    (cachedBranch w) (cache w) (now w) (sent w)).

Definition set_cachedBranch (v : option string) : M unit :=
  fun w => (Return tt,
            mkWorld (env w) (manifestTtlSeconds w) (dataTtlSeconds w) (cachedOwner w)
                    (cachedRepo w) v (cache w) (now w) (sent w)).

Definition with_cache (w : World) (c : LRUCache.t) : World :=
  mkWorld (env w) (manifestTtlSeconds w) (dataTtlSeconds w) (cachedOwner w)
          (cachedRepo w) (cachedBranch w) c (now w) (sent w).

(** [cache.get(key, { allowStale: true })] on the module's store *)
Definition cache_get (k : string) : M (option CacheEntry.t) :=
  fun w => let (v, c) := LRUCache.get k (now w) (cache w) in (Return v, with_cache w c).

Definition cache_getRemainingTTL (k : string) : M LRUCache.Remaining :=
  fun w => (Return (LRUCache.getRemainingTTL k (now w) (cache w)), w).

Definition cache_set (k : string) (v : CacheEntry.t) (ttl_ms : Z) : M unit :=
  fun w => (Return tt, with_cache w (LRUCache.set k v ttl_ms (now w) (cache w))).

(** The world once a request has had its exchange: the request is in the
    log and the clock has moved on. *)
Definition exchanged (rq : Request.t) (x : Exchange) (w : World) : World :=
  mkWorld (env w) (manifestTtlSeconds w) (dataTtlSeconds w) (cachedOwner w)
          (cachedRepo w) (cachedBranch w) (cache w) (now w + took x) (sent w ++ [rq]).

(** [await request(url, { method: 'GET', headers })]: the request is sent,
    the exchange takes its time, and the call resumes with the response or
    is rejected with the transport's error. *)
Definition request (origin : Origin) (url : string) (headers : list (string * string))
  : M Response.t :=
  fun w =>
    let rq := Request.mk url "GET" headers in
    let x := origin rq in
    match reply x with
    | Responded r => (Return r, exchanged rq x w)
    | Failed msg => (Throw (RequestError msg), exchanged rq x w)
    end.

(** ** Configuration *)

Definition DEFAULT_RAW_BASE : string := "https://raw.githubusercontent.com".

Definition requiredEnv (key : string) : M string :=
  value <- process_env key ;;
  if truthy value
  then ret (nullish value EmptyString)
  else throw (PlainError ("Missing required environment variable: " ++ key)).

Definition getOwner : M string :=
  c <- read cachedOwner ;;
  if truthy c then ret (nullish c EmptyString)
  else
    v <- requiredEnv "GITHUB_OWNER" ;;
    set_cachedOwner (Some v) ;;;
    ret v.

Definition getRepo : M string :=
  c <- read cachedRepo ;;
  if truthy c then ret (nullish c EmptyString)
  else
    v <- requiredEnv "GITHUB_REPO" ;;
    set_cachedRepo (Some v) ;;;
    ret v.

Definition getBranch : M string :=
  c <- read cachedBranch ;;
  if truthy c then ret (nullish c EmptyString)
  else
    e <- process_env "GITHUB_BRANCH" ;;
    let v := nullish e "main" in
    set_cachedBranch (Some v) ;;;
    ret v.

Definition cacheKey (source path : string) : string := source ++ ":" ++ path.

(** [s.replace(/\/$/, '')]: one slash at the very end is removed. *)
Fixpoint strip_trailing_slash (s : string) : string :=
  match s with
  | EmptyString => EmptyString
  | String c EmptyString => if Ascii.eqb c "/"%char then EmptyString else s
  | String c rest => String c (strip_trailing_slash rest)
  end.

Fixpoint lookup_header (name : string) (h : list (string * HeaderValue)) : option HeaderValue :=
  match h with
  | [] => None
  | (k, v) :: rest => if String.eqb k name then Some v else lookup_header name rest
  end.

Definition firstHeader (value : option HeaderValue) : option string :=
  match value with
  | Some (Many vs) => List.hd_error vs
  | Some (One v) => Some v
  | None => None
  end.

(** ** The resource fetcher *)

(** The object the function returns when it serves an entry of the store:
    the four fields of the entry and the provenance of this call. *)
Definition served (source : string) (cached : CacheEntry.t) (upstreamStatus : Z)
    (servedStale : bool) : FetchResult.t :=
  FetchResult.mk (CacheEntry.body cached) (CacheEntry.etag cached)
    (CacheEntry.lastModified cached) (CacheEntry.contentType cached)
    (GithubFetchMetrics.mk true (Some upstreamStatus) servedStale source).

(** The validator sent with the request: [If-None-Match] when the entry has
    a non-empty entity tag. *)
Definition conditional_headers (cached : option CacheEntry.t) : list (string * string) :=
  match cached with
  | Some c =>
      if truthy (CacheEntry.etag c)
      then [("If-None-Match", nullish (CacheEntry.etag c) EmptyString)]
      else []
  | None => []
  end.

(** Lines 118-122 of the function: the URL of the resource at the origin,
    from the base and the three identifiers. *)
Definition originUrl (path : string) : M string :=
  rawBase <- process_env "RAW_BASE" ;;
  let base := strip_trailing_slash (nullish rawBase DEFAULT_RAW_BASE) in
  owner <- getOwner ;;
  repo <- getRepo ;;
  branch <- getBranch ;;
  ret (base ++ "/" ++ owner ++ "/" ++ repo ++ "/" ++ branch ++ "/" ++ path).

(** The entry built from a response in the last branch. *)
Definition newEntry (response : Response.t) : CacheEntry.t :=
  let hs := Response.headers response in
  CacheEntry.mk (Buffer_from (Response.text response))
    (firstHeader (lookup_header "etag" hs))
    (firstHeader (lookup_header "last-modified" hs))
    (firstHeader (lookup_header "content-type" hs))
    (Some (Response.statusCode response)).

(** Lines 129-211: the branches on the status of the response. *)
Definition handleResponse (ttlSeconds : Z) (source path key : string)
    (cached : option CacheEntry.t) (response : Response.t) : M FetchResult.t :=
  let statusCode := Response.statusCode response in
  (* statusCode === 304 && cached *)
  match (if statusCode =? 304 then cached else None) with
  | Some c =>
      cache_set key (CacheEntry.with_statusCode c statusCode) (ttlSeconds * 1000) ;;;
      ret (served source c statusCode false)
  | None =>
      if statusCode =? 404 then
        match cached with
        | Some c => ret (served source c statusCode true)
        | None => throw (UpstreamNotFoundError ("Resource not found upstream: " ++ path))
        end
      else if 400 <=? statusCode then
        match cached with
        | Some c => ret (served source c statusCode true)
        | None =>
            throw (UpstreamUnavailableError ("Upstream request failed for " ++ path) statusCode)
        end
      else
        let entry := newEntry response in
        cache_set key entry (ttlSeconds * 1000) ;;;
        ret (FetchResult.mk (CacheEntry.body entry) (CacheEntry.etag entry)
               (CacheEntry.lastModified entry) (CacheEntry.contentType entry)
               (GithubFetchMetrics.mk false (Some statusCode) false source))
  end.

(** The part of [fetchResource] after the fresh-hit return (lines 113-211):
    the request to the origin and the branches on its status. *)
Definition fetchFromOrigin (origin : Origin) (ttlSeconds : Z) (source path key : string)
    (cached : option CacheEntry.t) : M FetchResult.t :=
  let headers := conditional_headers cached in
  url <- originUrl path ;;
  response <- request origin url headers ;;
  handleResponse ttlSeconds source path key cached response.

Definition fetchResource (origin : Origin) (o : FetchOptions.t) : M FetchResult.t :=
  let ttlSeconds := FetchOptions.ttlSeconds o in
  let source := FetchOptions.source o in
  let path := FetchOptions.path o in
  let key := cacheKey source path in
  cached <- cache_get key ;;
  remainingTtl <- cache_getRemainingTTL key ;;
  match cached with
  | Some c =>
      if LRUCache.is_positive remainingTtl          (* isFresh *)
      then ret (served source c (nullish (CacheEntry.statusCode c) 200) false)
      else fetchFromOrigin origin ttlSeconds source path key cached
  | None => fetchFromOrigin origin ttlSeconds source path key cached
  end.

(** [invalidateCache()] *)
Definition invalidateCache : M unit :=
  fun w => (Return tt, with_cache w (LRUCache.clear (cache w))).


(** ** [JSON.parse]

    The parser is the engine's, not the module's.  It is embedded as the
    automaton of the JSON grammar (ECMA-404): one step per character, a
    stack of the arrays and objects that are open.  A number is kept as its
    literal, a string as the UTF-8 encoding of its characters. *)

#[local] Set Warnings "-register-all".

Inductive JSValue : Type :=
| JNull
| JBool (b : bool)
| JNumber (literal : string)
| JString (s : string)
| JArray (items : list JSValue)
| JObject (members : list (string * JSValue)).

Module JSON.
(** A character of a string literal: a byte of the text, or the code
    unit of a [\uXXXX] escape. *)
Inductive StrItem : Type :=
| Raw (a : ascii)
| Unit16 (n : N).

Definition utf8 (n : N) : list ascii :=
  let cont (m : N) := ascii_of_N (128 + m mod 64)%N in
  if (n <? 128)%N then [ascii_of_N n]
  else if (n <? 2048)%N then [ascii_of_N (192 + n / 64)%N; cont n]
  else if (n <? 65536)%N then
    [ascii_of_N (224 + n / 4096)%N; cont (n / 64)%N; cont n]
  else
    [ascii_of_N (240 + n / 262144)%N; cont (n / 4096)%N; cont (n / 64)%N; cont n].

Definition is_high (n : N) : bool := ((55296 <=? n) && (n <=? 56319))%N.
Definition is_low (n : N) : bool := ((56320 <=? n) && (n <=? 57343))%N.

(** The characters of a literal; a surrogate pair of escapes is one
    character. *)
Fixpoint decode (items : list StrItem) : list ascii :=
  match items with
  | [] => []
  | Raw a :: rest => a :: decode rest
  | Unit16 hi :: rest =>
      match rest with
      | Unit16 lo :: rest' =>
          if is_high hi && is_low lo
          then utf8 (65536 + (hi - 55296) * 1024 + (lo - 56320))%N ++ decode rest'
          else utf8 hi ++ decode rest
      | _ => utf8 hi ++ decode rest
      end
  end.

Inductive NumState : Type :=
| NMinus | NZero | NInt | NDot | NFrac | NExp | NExpSign | NExpDigits.

Definition is_digit (c : ascii) : bool :=
  let n := N_of_ascii c in ((48 <=? n) && (n <=? 57))%N.

Definition is_digit19 (c : ascii) : bool :=
  let n := N_of_ascii c in ((49 <=? n) && (n <=? 57))%N.

Definition is_e (c : ascii) : bool := Ascii.eqb c "e" || Ascii.eqb c "E".
Definition is_sign (c : ascii) : bool := Ascii.eqb c "+" || Ascii.eqb c "-".

Definition num_step (ns : NumState) (c : ascii) : option NumState :=
  match ns with
  | NMinus =>
      if Ascii.eqb c "0" then Some NZero
      else if is_digit19 c then Some NInt else None
  | NZero =>
      if Ascii.eqb c "." then Some NDot
      else if is_e c then Some NExp else None
  | NInt =>
      if is_digit c then Some NInt
      else if Ascii.eqb c "." then Some NDot
      else if is_e c then Some NExp else None
  | NDot => if is_digit c then Some NFrac else None
  | NFrac =>
      if is_digit c then Some NFrac
      else if is_e c then Some NExp else None
  | NExp =>
      if is_sign c then Some NExpSign
      else if is_digit c then Some NExpDigits else None
  | NExpSign => if is_digit c then Some NExpDigits else None
  | NExpDigits => if is_digit c then Some NExpDigits else None
  end.

Definition num_final (ns : NumState) : bool :=
  match ns with
  | NZero | NInt | NFrac | NExpDigits => true
  | _ => false
  end.

Definition hex_digit (c : ascii) : option N :=
  let n := N_of_ascii c in
  if ((48 <=? n) && (n <=? 57))%N then Some (n - 48)%N
  else if ((65 <=? n) && (n <=? 70))%N then Some (n - 55)%N
  else if ((97 <=? n) && (n <=? 102))%N then Some (n - 87)%N
  else None.

Definition is_ws (c : ascii) : bool :=
  let n := N_of_ascii c in
  ((n =? 32) || (n =? 9) || (n =? 10) || (n =? 13))%N.

(** An array or an object that is open, with what it holds so far (last
    first) and, in an object, the key whose value is awaited. *)
Inductive Frame : Type :=
| FArray (done : list JSValue)
| FObject (done : list (string * JSValue)) (key : option string).

Inductive Mode : Type :=
| MValue (may_close : bool)     (* a value starts here; or the array ends *)
| MKey (may_close : bool)       (* a key starts here; or the object ends *)
| MColon
| MAfter                        (* after a value inside an array or object *)
| MDone (v : JSValue)           (* after the value of the text *)
| MString (is_key : bool) (acc : list StrItem)
| MEscape (is_key : bool) (acc : list StrItem)
| MUnicode (is_key : bool) (acc : list StrItem) (todo : nat) (v : N)
| MNumber (ns : NumState) (acc : list ascii)
| MLiteral (rest : list ascii) (v : JSValue).

Definition State : Type := (list Frame * Mode)%type.

(** A value is complete: it is the value of the text, or it goes into
    the innermost open array or object. *)
Definition complete (stack : list Frame) (v : JSValue) : option State :=
  match stack with
  | [] => Some ([], MDone v)
  | FArray done :: rest => Some (FArray (v :: done) :: rest, MAfter)
  | FObject done (Some k) :: rest => Some (FObject ((k, v) :: done) None :: rest, MAfter)
  | FObject _ None :: _ => None
  end.

(** A character after a complete value. *)
Definition step_after (st : State) (c : ascii) : option State :=
  match st with
  | (stack, MDone v) => if is_ws c then Some st else None
  | (stack, MAfter) =>
      if is_ws c then Some st
      else
        match stack with
        | FArray done :: rest =>
            if Ascii.eqb c "," then Some (stack, MValue false)
            else if Ascii.eqb c "]" then complete rest (JArray (List.rev done))
            else None
        | FObject done None :: rest =>
            if Ascii.eqb c "," then Some (stack, MKey false)
            else if Ascii.eqb c "}" then complete rest (JObject (List.rev done))
            else None
        | _ => None
        end
  | _ => None
  end.

Definition end_string (stack : list Frame) (is_key : bool) (acc : list StrItem)
  : option State :=
  let s := string_of_list_ascii (decode (List.rev acc)) in
  if is_key then
    match stack with
    | FObject done None :: rest => Some (FObject done (Some s) :: rest, MColon)
    | _ => None
    end
  else complete stack (JString s).

Definition escape (c : ascii) : option StrItem :=
  let n := N_of_ascii c in
  if (n =? 34)%N || (n =? 92)%N || (n =? 47)%N then Some (Raw c)
  else if Ascii.eqb c "b" then Some (Raw (ascii_of_N 8))
  else if Ascii.eqb c "f" then Some (Raw (ascii_of_N 12))
  else if Ascii.eqb c "n" then Some (Raw (ascii_of_N 10))
  else if Ascii.eqb c "r" then Some (Raw (ascii_of_N 13))
  else if Ascii.eqb c "t" then Some (Raw (ascii_of_N 9))
  else None.

Definition step (st : State) (c : ascii) : option State :=
  let (stack, mode) := st in
  match mode with
  | MValue may_close =>
      if is_ws c then Some st
      else if (N_of_ascii c =? 34)%N then Some (stack, MString false [])
      else if Ascii.eqb c "[" then Some (FArray [] :: stack, MValue true)
      else if Ascii.eqb c "{" then Some (FObject [] None :: stack, MKey true)
      else if Ascii.eqb c "]" then
        match may_close, stack with
        | true, FArray [] :: rest => complete rest (JArray [])
        | _, _ => None
        end
      else if Ascii.eqb c "-" then Some (stack, MNumber NMinus [c])
      else if Ascii.eqb c "0" then Some (stack, MNumber NZero [c])
      else if is_digit19 c then Some (stack, MNumber NInt [c])
      else if Ascii.eqb c "t" then Some (stack, MLiteral ["r"; "u"; "e"]%char (JBool true))
      else if Ascii.eqb c "f" then
        Some (stack, MLiteral ["a"; "l"; "s"; "e"]%char (JBool false))
      else if Ascii.eqb c "n" then Some (stack, MLiteral ["u"; "l"; "l"]%char JNull)
      else None
  | MKey may_close =>
      if is_ws c then Some st
      else if (N_of_ascii c =? 34)%N then Some (stack, MString true [])
      else if Ascii.eqb c "}" then
        match may_close, stack with
        | true, FObject [] None :: rest => complete rest (JObject [])
        | _, _ => None
        end
      else None
  | MColon =>
      if is_ws c then Some st
      else if Ascii.eqb c ":" then Some (stack, MValue false)
      else None
  | MAfter | MDone _ => step_after st c
  | MString is_key acc =>
      let n := N_of_ascii c in
      if (n =? 34)%N then end_string stack is_key acc
      else if (n =? 92)%N then Some (stack, MEscape is_key acc)
      else if (n <? 32)%N then None
      else Some (stack, MString is_key (Raw c :: acc))
  | MEscape is_key acc =>
      if Ascii.eqb c "u" then Some (stack, MUnicode is_key acc 4%nat 0%N)
      else
        match escape c with
        | Some item => Some (stack, MString is_key (item :: acc))
        | None => None
        end
  | MUnicode is_key acc todo v =>
      match hex_digit c with
      | Some d =>
          let v' := (v * 16 + d)%N in
          match todo with
          | S (S l) => Some (stack, MUnicode is_key acc (S l) v')
          | _ => Some (stack, MString is_key (Unit16 v' :: acc))
          end
      | None => None
      end
  | MNumber ns acc =>
      match num_step ns c with
      | Some ns' => Some (stack, MNumber ns' (c :: acc))
      | None =>
          if num_final ns then
            match complete stack (JNumber (string_of_list_ascii (List.rev acc))) with
            | Some st' => step_after st' c
            | None => None
            end
          else None
      end
  | MLiteral rest v =>
      match rest with
      | c' :: rest' =>
          if Ascii.eqb c c' then
            match rest' with
            | [] => complete stack v
            | _ => Some (stack, MLiteral rest' v)
            end
          else None
      | [] => None
      end
  end.

Fixpoint run (st : State) (cs : list ascii) : option State :=
  match cs with
  | [] => Some st
  | c :: rest =>
      match step st c with
      | Some st' => run st' rest
      | None => None
      end
  end.

(** At the end of the text: its value, if it is complete. *)
Definition finish (st : State) : option JSValue :=
  match st with
  | ([], MDone v) => Some v
  | ([], MNumber ns acc) =>
      if num_final ns then Some (JNumber (string_of_list_ascii (List.rev acc))) else None
  | _ => None
  end.

(** [JSON.parse(text)]: the value, or the message of the [SyntaxError]
    (the engine's wording is not reproduced). *)
Definition parse (text : string) : JSValue + string :=
  match run ([], MValue false) (list_ascii_of_string text) with
  | Some st =>
      match finish st with
      | Some v => inl v
      | None => inr "Unexpected end of JSON input"
      end
  | None => inr "Unexpected token in JSON"
  end.
End JSON.

(** ** The dataset accessors *)

Inductive Dataset : Type :=
| lending
| borrowing.

Definition Dataset_name (d : Dataset) : string :=
  match d with
  | lending => "lending"
  | borrowing => "borrowing"
  end.

(** [parseJson<T>(buffer, path)]: the cast [as T] leaves no trace at run
    time. *)
Definition parseJson (buffer : Buffer) (path : string) : M JSValue :=
  match JSON.parse (Buffer_toString buffer) with
  | inl v => ret v
  | inr message =>
      throw (PlainError ("Failed to parse JSON from " ++ path ++ ": " ++ message))
  end.

(** The value of the last member with the given name. *)
Fixpoint member (name : string) (ms : list (string * JSValue)) : option JSValue :=
  match ms with
  | [] => None
  | (k, v) :: rest =>
      match member name rest with
      | Some v' => Some v'
      | None => if String.eqb k name then Some v else None
      end
  end.

(** [manifest.updated_at] on whatever value the text held: a [TypeError] on
    [null], the member of an object, [undefined] on any other value. *)
Definition read_updated_at (manifest : JSValue) : M (option JSValue) :=
  match manifest with
  | JNull =>
      throw (TypeError "Cannot read properties of null (reading 'updated_at')")
  | JObject ms => ret (member "updated_at" ms)
  | _ => ret None
  end.

Module ManifestResult.
Record t : Type := mk {
  manifest : JSValue;
  etag : option string;
  updatedAt : option JSValue;
  metrics : GithubFetchMetrics.t
}.
End ManifestResult.

Module DailyResult.
Record t : Type := mk {
  data : JSValue;
  etag : option string;
  lastModified : option string;
  metrics : GithubFetchMetrics.t
}.
End DailyResult.

Definition manifestPath (dataset : Dataset) : string :=
  "meta/" ++ Dataset_name dataset ++ "_manifest.json".

Definition manifestOptions (dataset : Dataset) (w : World) : FetchOptions.t :=
  FetchOptions.mk (manifestTtlSeconds w) ("manifest:" ++ Dataset_name dataset)
    (manifestPath dataset).

Definition getManifest (origin : Origin) (dataset : Dataset) : M ManifestResult.t :=
  let path := manifestPath dataset in
  options <- read (manifestOptions dataset) ;;
  result <- fetchResource origin options ;;
  manifest <- parseJson (FetchResult.buffer result) path ;;
  updatedAt <- read_updated_at manifest ;;
  ret (ManifestResult.mk manifest (FetchResult.etag result) updatedAt
         (FetchResult.metrics result)).

Definition dailyPath (dataset : Dataset) (date : string) : string :=
  "data/" ++ Dataset_name dataset ++ "/" ++ date ++ ".json".

Definition dailyOptions (dataset : Dataset) (date : string) (w : World) : FetchOptions.t :=
  FetchOptions.mk (dataTtlSeconds w) (Dataset_name dataset ++ ":" ++ date)
    (dailyPath dataset date).

Definition getDailyDataset (origin : Origin) (dataset : Dataset) (date : string)
  : M DailyResult.t :=
  let path := dailyPath dataset date in
  options <- read (dailyOptions dataset date) ;;
  result <- fetchResource origin options ;;
  data <- parseJson (FetchResult.buffer result) path ;;
  ret (DailyResult.mk data (FetchResult.etag result) (FetchResult.lastModified result)
         (FetchResult.metrics result)).

(** The shapes the two casts name (types.ts): a [Manifest] has the four
    fields with their types; the rows are an array of objects. *)
Definition is_string (v : option JSValue) : bool :=
  match v with Some (JString _) => true | _ => false end.

Definition is_number (v : option JSValue) : bool :=
  match v with Some (JNumber _) => true | _ => false end.

Definition is_string_array (v : option JSValue) : bool :=
  match v with
  | Some (JArray items) => List.forallb (fun i => is_string (Some i)) items
  | _ => false
  end.

Definition is_Manifest (v : JSValue) : bool :=
  match v with
  | JObject ms =>
      is_string (member "latest" ms) && is_string_array (member "dates" ms)
      && is_string (member "updated_at" ms) && is_number (member "schema_version" ms)
  | _ => false
  end.

Definition is_row_array (v : JSValue) : bool :=
  match v with
  | JArray items =>
      List.forallb (fun i => match i with JObject _ => true | _ => false end) items
  | _ => false
  end.

(** ** The route helpers (routes/helpers.ts) and the health route

    A handler acts on a request and a reply of the web framework.  What it
    reads of the request are the method, the [If-None-Match] header and
    the metrics the request carries; what it does to the reply is kept as
    the sequence of the calls made on it, in order, and what it logs as
    the sequence of the log calls.  The framework is not part of the
    module: what it makes of a call (the status codes it accepts, the
    serialisation of a payload) is not modelled. *)

Module UpstreamMetrics.
Record t : Type := mk {
  cacheHits : list bool;
  statuses : list Z;
  sources : list string
}.
End UpstreamMetrics.

(** What a handler of this model passes to [reply.send]. *)
Inductive Payload : Type :=
| ErrorBody (error : string) (code : Z)
| DatesBody (dataset : Dataset) (latest updatedAt dates : option JSValue)
| HealthBody (ok : bool) (lendingUpdatedAt borrowingUpdatedAt : option JSValue).

Inductive ReplyCall : Type :=
| Header (name value : string)          (* reply.header(name, value) *)
| ContentType (value : string)          (* reply.type(value) *)
| Code (statusCode : Z)                 (* reply.code(n), reply.status(n) *)
| Send (payload : option Payload).      (* reply.send(payload), reply.send() *)

Inductive LogCall : Type :=
| LogError (err : JsError) (message : string)
| LogWarn (err : JsError) (message : string).

Module Http.
Record t : Type := mk {
  method : string;                                (* request.method *)
  ifNoneMatch : option HeaderValue;               (* request.headers['if-none-match'] *)
  upstreamMetrics : option UpstreamMetrics.t;     (* request.upstreamMetrics *)
  log : list LogCall;                             (* request.log *)
  reply : list ReplyCall
}.

Definition call (h : t) (calls : list ReplyCall) : t :=
  mk (method h) (ifNoneMatch h) (upstreamMetrics h) (log h) (reply h ++ calls).

Definition logged (h : t) (entry : LogCall) : t :=
  mk (method h) (ifNoneMatch h) (upstreamMetrics h) (log h ++ [entry]) (reply h).

Definition with_metrics (h : t) (m : UpstreamMetrics.t) : t :=
  mk (method h) (ifNoneMatch h) (Some m) (log h) (reply h).
End Http.


Definition sendError (h : Http.t) (statusCode : Z) (message : string) : Http.t :=
  Http.call h
    [Header "Access-Control-Allow-Origin" "*";
     ContentType "application/json; charset=utf-8";
     Code statusCode;
     Send (Some (ErrorBody message statusCode))].


Definition recordMetrics (h : Http.t) (metrics : GithubFetchMetrics.t) : Http.t :=
  match Http.upstreamMetrics h with
  | None => h
  | Some ctx =>
      Http.with_metrics h
        (UpstreamMetrics.mk
           (UpstreamMetrics.cacheHits ctx ++ [GithubFetchMetrics.cacheHit metrics])
           (match GithubFetchMetrics.upstreamStatus metrics with
            | Some status => UpstreamMetrics.statuses ctx ++ [status]
            | None => UpstreamMetrics.statuses ctx
            end)
           (UpstreamMetrics.sources ctx ++ [GithubFetchMetrics.source metrics]))
  end.

(** [try { ... } catch (error) { ... }]: what was written before the throw
    stays written. *)
Definition try_catch {A : Type} (body : M A) (handler : JsError -> M A) : M A :=
  fun w =>
    match body w with
    | (Return a, w') => (Return a, w')
    | (Throw e, w') => handler e w'
    end.

Definition safeGetManifest (origin : Origin) (dataset : Dataset) (h : Http.t)
  : M (option ManifestResult.t * Http.t) :=
  try_catch
    (r <- getManifest origin dataset ;; ret (Some r, h))
    (fun error =>
       if instanceof_UpstreamNotFoundError error then
         ret (None, sendError h 404 "Manifest not found")
       else
         match error with
         | UpstreamUnavailableError _ statusCode =>
             ret (None, sendError h statusCode "Upstream manifest unavailable")
         | _ =>
             ret (None, sendError (Http.logged h (LogError error "Failed to fetch manifest"))
                          502 "Failed to fetch manifest")
         end).

Definition safeGetDaily (origin : Origin) (dataset : Dataset) (date : string) (h : Http.t)
  : M (option DailyResult.t * Http.t) :=
  try_catch
    (r <- getDailyDataset origin dataset date ;; ret (Some r, h))
    (fun error =>
       if instanceof_UpstreamNotFoundError error then
         ret (None, sendError h 404 ("Data not found for " ++ date))
       else
         match error with
         | UpstreamUnavailableError _ statusCode =>
             ret (None, sendError h statusCode "Upstream data unavailable")
         | _ =>
             ret (None, sendError (Http.logged h (LogError error "Failed to fetch dataset"))
                          502 "Failed to fetch dataset")
         end).

(** [manifest.latest], [manifest.updated_at], [manifest.dates] on whatever
    value the manifest is: a [TypeError] on [null], the member of an
    object, [undefined] on any other value. *)
Definition read_field (name : string) (v : JSValue) : M (option JSValue) :=
  match v with
  | JNull =>
      throw (TypeError ("Cannot read properties of null (reading '" ++ name ++ "')"))
  | JObject ms => ret (member name ms)
  | _ => ret None
  end.


(** One of the two [try] blocks of the health route (server.ts): the
    manifest is fetched, its metrics recorded and its [updated_at] read;
    any error is logged as a warning and makes the status 206. *)
Definition healthManifest (origin : Origin) (dataset : Dataset) (message : string)
    (h : Http.t) : M (option JSValue * bool * Http.t) :=
  try_catch
    (m <- getManifest origin dataset ;;
     let h1 := recordMetrics h (ManifestResult.metrics m) in
     try_catch
       (u <- read_field "updated_at" (ManifestResult.manifest m) ;; ret (u, true, h1))
       (fun error => ret (None, false, Http.logged h1 (LogWarn error message))))
    (fun error => ret (None, false, Http.logged h (LogWarn error message))).

(** The handler of [/v1/health]. *)
Definition health (origin : Origin) (h : Http.t) : M Http.t :=
  l <- healthManifest origin lending "lending manifest unavailable for health" h ;;
  let '(lendingUpdatedAt, lendingOk, h1) := l in
  b <- healthManifest origin borrowing "borrowing manifest unavailable for health" h1 ;;
  let '(borrowingUpdatedAt, borrowingOk, h2) := b in
  let statusCode := if lendingOk && borrowingOk then 200 else 206 in
  let h3 :=
    Http.call h2
      [Header "Access-Control-Allow-Origin" "*";
       Header "Cache-Control" "public, max-age=300, stale-while-revalidate=86400";
       ContentType "application/json; charset=utf-8"] in
  if String.eqb (Http.method h3) "HEAD"
  then ret (Http.call h3 [Code statusCode; Send None])
  else ret (Http.call h3 [Code statusCode;
                          Send (Some (HealthBody true lendingUpdatedAt borrowingUpdatedAt))]).

(** *** Ranges of dates and pages *)

(** The UTF-16 code units of a text, from its UTF-8 encoding: the
    relational operators of JavaScript compare strings unit by unit. *)
Fixpoint code_units (cs : list ascii) : list N :=
  match cs with
  | [] => []
  | a :: rest =>
      let b := N_of_ascii a in
      if (b <? 128)%N then b :: code_units rest
      else if (b <? 224)%N then
        match rest with
        | c1 :: rest1 =>
            ((b - 192) * 64 + (N_of_ascii c1 - 128))%N :: code_units rest1
        | [] => [65533%N]
        end
      else if (b <? 240)%N then
        match rest with
        | c1 :: c2 :: rest2 =>
            ((b - 224) * 4096 + (N_of_ascii c1 - 128) * 64 + (N_of_ascii c2 - 128))%N
            :: code_units rest2
        | _ => [65533%N]
        end
      else
        match rest with
        | c1 :: c2 :: c3 :: rest3 =>
            let v := ((b - 240) * 262144 + (N_of_ascii c1 - 128) * 4096
                      + (N_of_ascii c2 - 128) * 64 + (N_of_ascii c3 - 128) - 65536)%N in
            (55296 + v / 1024)%N :: (56320 + v mod 1024)%N :: code_units rest3
        | _ => [65533%N]
        end
  end.

Fixpoint units_lt (x y : list N) : bool :=
  match x, y with
  | _, [] => false
  | [], _ :: _ => true
  | a :: x', b :: y' =>
      if (a <? b)%N then true
      else if (b <? a)%N then false
      else units_lt x' y'
  end.

(** [a < b] on strings *)
Definition js_lt (a b : string) : bool :=
  units_lt (code_units (list_ascii_of_string a)) (code_units (list_ascii_of_string b)).

(** [resolveRange(query, manifest)], on the two bounds of the query and
    the dates of the manifest; [None] is [null]. *)
Definition resolveRange (qfrom qto : option string) (dates : list string)
  : option (option string * option string) :=
  let from := match qfrom with Some f => Some f | None => List.hd_error dates end in
  let to := match qto with Some t => Some t | None => List.hd_error (List.rev dates) end in
  if truthy from && truthy to && js_lt (nullish to EmptyString) (nullish from EmptyString)
  then None
  else Some (from, to).

Definition inRange (date : string) (from to : option string) : bool :=
  if truthy from && js_lt date (nullish from EmptyString) then false
  else if truthy to && js_lt (nullish to EmptyString) date then false
  else true.

(** [array.slice(start, end)] on integers. *)
Definition slice {A : Type} (start stop : Z) (l : list A) : list A :=
  let len := Z.of_nat (List.length l) in
  let k := if start <? 0 then Z.max (len + start) 0 else Z.min start len in
  let final := if stop <? 0 then Z.max (len + stop) 0 else Z.min stop len in
  List.firstn (Z.to_nat (final - k)) (List.skipn (Z.to_nat k) l).

(** The page of [handleAll]: the rows of all days, flattened, and the slice
    of them for the page asked for. *)
Definition paginated {A : Type} (page perPage : option Z) (rowsByDate : list (list A))
  : list A :=
  let page := nullish page 1 in
  let perPage := nullish perPage 1000 in
  let allRows := List.concat rowsByDate in
  let start := (page - 1) * perPage in
  slice start (start + perPage) allRows.

(** The dates [handleAll] fetches: those of the manifest within the
    range. *)
Definition datesInRange (range : option string * option string) (dates : list string)
  : list string :=
  List.filter (fun date => inRange date (fst range) (snd range)) dates.

(** ** Vocabulary of the statements *)

Definition key_of (o : FetchOptions.t) : string :=
  cacheKey (FetchOptions.source o) (FetchOptions.path o).

(** The entry under the key still has freshness left ([isFresh]). *)
Definition isFresh (k : string) (w : World) : bool :=
  LRUCache.is_positive (LRUCache.getRemainingTTL k (now w) (cache w)).

(** The owner and the repository are known: memoised by an earlier call or
    present, and not empty, in the environment. *)
Definition has_owner (w : World) : bool :=
  truthy (cachedOwner w) || truthy (lookup_env "GITHUB_OWNER" (env w)).

Definition has_repo (w : World) : bool :=
  truthy (cachedRepo w) || truthy (lookup_env "GITHUB_REPO" (env w)).

Definition configured (w : World) : bool := has_owner w && has_repo w.

(** Nothing was stored between two states of the store: every entry of the
    later state is an entry of the earlier one, unchanged. *)
Definition no_write (before after : LRUCache.t) : Prop :=
  forall k s, LRUCache.find_slot k after = Some s -> LRUCache.find_slot k before = Some s.

(** The world once [fetchResource] has looked its key up. *)
Definition looked_up (k : string) (w : World) : World :=
  with_cache w (snd (LRUCache.get k (now w) (cache w))).

(** The world some milliseconds later, nothing else changed. *)
Definition later (dt : Z) (w : World) : World :=
  mkWorld (env w) (manifestTtlSeconds w) (dataTtlSeconds w) (cachedOwner w)
          (cachedRepo w) (cachedBranch w) (cache w) (now w + dt) (sent w).



(** [a <= b] on strings *)
Definition js_le (a b : string) : bool := negb (js_lt b a).

(** The pages [1], ..., [n]. *)
Definition pages (n : nat) : list Z := List.map (fun i => Z.of_nat i + 1) (List.seq 0 n).

Definition is_2xx (status : Z) : bool := (200 <=? status) && (status <=? 299).

(** ** Concrete worlds and origins used in the examples *)

Module Sample.
Definition env0 : list (string * string) :=
  [("GITHUB_OWNER", "test-owner"); ("GITHUB_REPO", "test-repo")].

(** The module right after load, as the test suite configures it. *)
Definition world0 : World :=
  mkWorld env0 1 1 None None None (LRUCache.mk 5 false []) 1000 [].

Definition opts : FetchOptions.t :=
  FetchOptions.mk 1 "lending:2025-09-30" "data/lending/2025-09-30.json".

Definition key0 : string := cacheKey (FetchOptions.source opts) (FetchOptions.path opts).

(** a string literal of JSON: the text between two quotation marks *)
Definition q (s : string) : string :=
  String (ascii_of_nat 34) s ++ String (ascii_of_nat 34) EmptyString.

(** the body [[{"protocol":"Vesu"}]] of the test suite *)
Definition vesu : string := "[{" ++ q "protocol" ++ ":" ++ q "Vesu" ++ "}]".

Definition old_entry : CacheEntry.t :=
  CacheEntry.mk (Buffer_from vesu) (Some "etag-1") None (Some "application/json")
    (Some 200).

(** A store whose only entry, set at time 1000 with one second to live,
    is overdue at time 5000. *)
Definition stale_world (keep : bool) : World :=
  mkWorld env0 1 1 None None None
    (LRUCache.mk 5 keep [LRUCache.mkSlot key0 old_entry 1000 1000]) 5000 [].

Definition answers (status : Z) (headers : list (string * HeaderValue)) (text : string)
  : Origin :=
  fun _ => mkExchange (Responded (Response.mk status headers text)) 20.

Definition unreachable : Origin :=
  fun _ => mkExchange (Failed "connect ECONNREFUSED") 20.

(** An overdue entry whose bytes are not JSON. *)
Definition garbled_entry : CacheEntry.t :=
  CacheEntry.mk (Buffer_from "<html>") None None (Some "text/html") (Some 200).

Definition garbled_world : World :=
  mkWorld env0 1 1 None None None
    (LRUCache.mk 5 true [LRUCache.mkSlot key0 garbled_entry 1000 1000]) 5000 [].

(** A GET request as the [onRequest] hook of the server prepares it. *)
Definition get_request : Http.t :=
  Http.mk "GET" None (Some (UpstreamMetrics.mk [] [] [])) [] [].

Definition manifest_key : string :=
  cacheKey "manifest:lending" "meta/lending_manifest.json".
End Sample.


(** * Properties *)

(** ** The store *)

Section Store.
Import LRUCache.

Lemma is_key_true k s : is_key k s = true <-> key s = k.
Proof. unfold is_key. apply String.eqb_eq. Qed.

Lemma find_without_same k l : List.find (is_key k) (without k l) = None.
Proof.
  induction l as [|s l IH]; simpl; [reflexivity|].
  destruct (is_key k s) eqn:E; simpl; [exact IH|].
  rewrite E. exact IH.
Qed.

Lemma find_without_other k k' l :
  k' <> k -> List.find (is_key k') (without k l) = List.find (is_key k') l.
Proof.
  intros Hne. induction l as [|s l IH]; simpl; [reflexivity|].
  destruct (is_key k s) eqn:E; simpl.
  - apply is_key_true in E.
    destruct (is_key k' s) eqn:E'; [|exact IH].
    apply is_key_true in E'. congruence.
  - destruct (is_key k' s); [reflexivity|exact IH].
Qed.

Lemma find_firstn {A} (f : A -> bool) n l x :
  List.find f (List.firstn n l) = Some x -> List.find f l = Some x.
Proof.
  revert l; induction n as [|n IH]; intros [|a l]; simpl; try discriminate.
  destruct (f a); [trivial|apply IH].
Qed.

Lemma find_slot_key k c s : find_slot k c = Some s -> key s = k.
Proof.
  unfold find_slot. intros H. apply List.find_some in H.
  apply is_key_true, H.
Qed.

Lemma no_write_refl c : no_write c c.
Proof. intros k s H; exact H. Qed.

(** What a [get] returns is what is stored. *)
Lemma get_value k t c : fst (get k t c) = stored k c.
Proof.
  unfold get, stored. destruct (find_slot k c) as [s|]; [|reflexivity].
  destruct (isStale t s); reflexivity.
Qed.

(** A [get] stores nothing: it reorders the entries or drops the one it
    found overdue. *)
Lemma get_no_write k t c : no_write c (snd (get k t c)).
Proof.
  unfold get. destruct (find_slot k c) as [s|] eqn:F; [|apply no_write_refl].
  assert (Hdrop : no_write c (with_slots c (without k (slots c)))).
  { intros k' s'. unfold find_slot; simpl. intros H.
    destruct (String.eqb_spec k' k) as [->|Hne].
    - rewrite find_without_same in H. discriminate.
    - rewrite find_without_other in H by assumption. exact H. }
  destruct (isStale t s).
  - simpl. destruct (noDeleteOnStaleGet c); [apply no_write_refl|exact Hdrop].
  - simpl. intros k' s'. unfold find_slot at 1; simpl.
    destruct (is_key k' s) eqn:E.
    + intros [= <-]. apply is_key_true in E.
      pose proof (find_slot_key _ _ _ F). congruence.
    + intros H. apply Hdrop. exact H.
Qed.

(** An entry that is not overdue stays where a [get] found it. *)
Lemma get_keeps k t c s :
  find_slot k c = Some s -> isStale t s = false ->
  find_slot k (snd (get k t c)) = Some s.
Proof.
  intros F St. unfold get. rewrite F, St. simpl.
  unfold find_slot; simpl.
  pose proof (find_slot_key _ _ _ F) as Hk.
  apply is_key_true in Hk. rewrite Hk. reflexivity.
Qed.

(** Freshness left, read on the slot: the entry never expires, or its age
    is below its time to live. *)
Lemma positive_remaining k t c :
  is_positive (getRemainingTTL k t c) = true <->
  exists s, find_slot k c = Some s /\ (ttl s = 0 \/ t - start s < ttl s).
Proof.
  unfold getRemainingTTL. destruct (find_slot k c) as [s|].
  - destruct (ttl s =? 0) eqn:E; simpl; split.
    + intros _. exists s. apply Z.eqb_eq in E. auto.
    + reflexivity.
    + intros H. apply Z.ltb_lt in H. exists s. split; [reflexivity|right; lia].
    + intros [s' [[= <-] [H|H]]]; apply Z.eqb_neq in E; [contradiction|].
      apply Z.ltb_lt. lia.
  - simpl. split; [discriminate|]. intros [s [H _]]. discriminate.
Qed.

(** An entry with freshness left is not overdue. *)
Lemma fresh_not_stale s t :
  ttl s = 0 \/ t - start s < ttl s -> isStale t s = false.
Proof.
  unfold isStale. destruct (Z.eqb_spec (ttl s) 0) as [E|E]; simpl.
  - reflexivity.
  - intros [H|H]; [contradiction|]. apply Z.ltb_ge. lia.
Qed.

(** An overdue entry has no freshness left. *)
Lemma stale_not_fresh k t c s :
  find_slot k c = Some s -> isStale t s = true ->
  is_positive (getRemainingTTL k t c) = false.
Proof.
  intros F St. destruct (is_positive (getRemainingTTL k t c)) eqn:P; [|reflexivity].
  apply positive_remaining in P as (s' & F' & Hs').
  apply fresh_not_stale in Hs'. congruence.
Qed.

(** A fresh entry stays where a [get] found it. *)
Lemma fresh_get_keeps k t c s :
  find_slot k c = Some s -> is_positive (getRemainingTTL k t c) = true ->
  find_slot k (snd (get k t c)) = Some s.
Proof.
  intros F P. apply get_keeps; [exact F|].
  apply positive_remaining in P as (s' & F' & Hs').
  apply fresh_not_stale. congruence.
Qed.

(** The freshness left is positive after the [get] exactly when it was
    before it. *)
Lemma remaining_after_get k t c :
  is_positive (getRemainingTTL k t (snd (get k t c)))
  = is_positive (getRemainingTTL k t c).
Proof.
  destruct (find_slot k c) as [s|] eqn:F.
  - destruct (isStale t s) eqn:St.
    + assert (Hno : forall c', (forall s', find_slot k c' = Some s' -> s' = s) ->
                               is_positive (getRemainingTTL k t c') = false).
      { intros c' Hc'. destruct (is_positive (getRemainingTTL k t c')) eqn:P; [|reflexivity].
        apply positive_remaining in P as (s' & F' & Hs').
        apply Hc' in F'. subst s'. apply fresh_not_stale in Hs'. congruence. }
      rewrite (Hno c) by (intros s' F'; congruence).
      apply Hno. intros s' F'. apply get_no_write in F'. congruence.
    + unfold getRemainingTTL. rewrite (get_keeps _ _ _ _ F St), F. reflexivity.
  - unfold get. rewrite F. reflexivity.
Qed.

(** After a [set] the key holds the new entry, its clock restarted. *)
Lemma set_found k v ttl_ms t c :
  find_slot k (set k v ttl_ms t c) = Some (mkSlot k v t ttl_ms).
Proof.
  unfold set, find_slot; simpl. unfold is_key at 1; simpl.
  rewrite String.eqb_refl. reflexivity.
Qed.

(** Right after a [set] the whole time to live is left, without end when
    it is 0. *)
Lemma remaining_after_set k v ttl_ms t c :
  getRemainingTTL k t (set k v ttl_ms t c)
  = if ttl_ms =? 0 then Infinity else Finite ttl_ms.
Proof.
  unfold getRemainingTTL. rewrite set_found. simpl.
  destruct (ttl_ms =? 0); [reflexivity|f_equal; lia].
Qed.

Lemma fresh_after_set k v ttl_ms t c :
  0 <= ttl_ms -> is_positive (getRemainingTTL k t (set k v ttl_ms t c)) = true.
Proof.
  intros H. rewrite remaining_after_set.
  destruct (Z.eqb_spec ttl_ms 0); [reflexivity|]. apply Z.ltb_lt. lia.
Qed.

(** A [set] changes no entry under another key (it may drop one). *)
Lemma set_other k v ttl_ms t c k' s :
  k' <> k -> find_slot k' (set k v ttl_ms t c) = Some s -> find_slot k' c = Some s.
Proof.
  intros Hne. unfold set, find_slot at 1; simpl. unfold is_key at 1; simpl.
  destruct (String.eqb_spec k k') as [->|_]; [congruence|].
  destruct (find_slot k c); intros H.
  - rewrite find_without_other in H by assumption. exact H.
  - apply find_firstn in H. rewrite find_without_other in H by assumption. exact H.
Qed.

Lemma stored_find k c e :
  stored k c = Some e <-> exists s, find_slot k c = Some s /\ value s = e.
Proof.
  unfold stored. destruct (find_slot k c) as [s|]; simpl; split.
  - intros [= <-]. eauto.
  - intros [s' [[= <-] <-]]. reflexivity.
  - discriminate.
  - intros [s' [H _]]. discriminate.
Qed.

Lemma no_write_stored a b k e :
  no_write a b -> stored k b = Some e -> stored k a = Some e.
Proof.
  intros H Hs. apply stored_find in Hs as [s [F V]].
  apply stored_find. exists s. split; [apply H, F|exact V].
Qed.
Lemma stored_set_same k v ttl_ms t c : stored k (set k v ttl_ms t c) = Some v.
Proof. unfold stored. rewrite set_found. reflexivity. Qed.

Lemma stored_set_other k v ttl_ms t c k' e :
  k' <> k -> stored k' (set k v ttl_ms t c) = Some e -> stored k' c = Some e.
Proof.
  intros Hne Hs. apply stored_find in Hs as [s [F V]].
  apply stored_find. exists s. split; [|exact V].
  apply (set_other k v ttl_ms t c k' s Hne F).
Qed.
End Store.

(** ** Configuration *)

Ltac unfold_config :=
  unfold originUrl, getOwner, getRepo, getBranch, requiredEnv, process_env, read,
    set_cachedOwner, set_cachedRepo, set_cachedBranch, bind, ret, throw.

Ltac split_truthy :=
  repeat match goal with
    | |- context [truthy ?v] => destruct (truthy v) eqn:?; simpl
    end.

(** Building the URL touches neither the store, the clock, the log of
    requests nor the environment. *)
Lemma originUrl_frame path w :
  cache (snd (originUrl path w)) = cache w
  /\ now (snd (originUrl path w)) = now w
  /\ sent (snd (originUrl path w)) = sent w
  /\ env (snd (originUrl path w)) = env w.
Proof.
  unfold_config. simpl. split_truthy; auto.
Qed.

Lemma originUrl_configured path w :
  configured w = true -> exists url, fst (originUrl path w) = Return url.
Proof.
  unfold configured, has_owner, has_repo. intros H.
  apply andb_prop in H as [Ho Hr].
  unfold_config. simpl.
  destruct (truthy (cachedOwner w)) eqn:O; simpl in *;
    [|rewrite Ho; simpl];
    (destruct (truthy (cachedRepo w)) eqn:R; simpl in *; [|rewrite Hr; simpl]);
    split_truthy; eauto.
Qed.

Lemma originUrl_missing path w :
  configured w = false ->
  exists k, (k = "GITHUB_OWNER" \/ k = "GITHUB_REPO")
    /\ fst (originUrl path w)
       = Throw (PlainError ("Missing required environment variable: " ++ k)).
Proof.
  unfold configured, has_owner, has_repo. intros H.
  unfold_config. simpl.
  destruct (truthy (cachedOwner w)) eqn:O; simpl in *.
  - destruct (truthy (cachedRepo w)) eqn:R; simpl in *; [discriminate|].
    rewrite H. simpl. eauto.
  - destruct (truthy (lookup_env "GITHUB_OWNER" (env w))) eqn:Eo; simpl in *.
    + destruct (truthy (cachedRepo w)) eqn:R; simpl in *; [discriminate|].
      rewrite H. simpl. eauto.
    + eauto.
Qed.

(** The URL a configured call builds: the base of the environment, then
    for each identifier the memoised value or else the environment's, the
    branch being [main] when neither gives one. *)
Lemma originUrl_value path w :
  configured w = true ->
  exists owner repo branch w0,
    originUrl path w
    = (Return (strip_trailing_slash (nullish (lookup_env "RAW_BASE" (env w)) DEFAULT_RAW_BASE)
               ++ "/" ++ owner ++ "/" ++ repo ++ "/" ++ branch ++ "/" ++ path), w0)
    /\ sent w0 = sent w
    /\ Some owner = (if truthy (cachedOwner w) then cachedOwner w
                     else lookup_env "GITHUB_OWNER" (env w))
    /\ Some repo = (if truthy (cachedRepo w) then cachedRepo w
                    else lookup_env "GITHUB_REPO" (env w))
    /\ (truthy (cachedBranch w) = true -> Some branch = cachedBranch w)
    /\ (truthy (cachedBranch w) = false ->
        forall b, lookup_env "GITHUB_BRANCH" (env w) = Some b -> branch = b)
    /\ (truthy (cachedBranch w) = false ->
        lookup_env "GITHUB_BRANCH" (env w) = None -> branch = "main").
Proof.
  unfold configured, has_owner, has_repo. intros H.
  apply andb_prop in H as [Ho Hr].
  assert (Hsome : forall v, truthy v = true -> Some (nullish v EmptyString) = v).
  { intros [x|]; [reflexivity|discriminate]. }
  unfold_config. simpl.
  destruct (truthy (cachedOwner w)) eqn:O; simpl in *;
    [|rewrite Ho; simpl];
    (destruct (truthy (cachedRepo w)) eqn:R; simpl in *; [|rewrite Hr; simpl]);
    (destruct (truthy (cachedBranch w)) eqn:B; simpl);
    do 3 eexists; eexists;
    (split; [reflexivity|]); (split; [reflexivity|]);
    (split; [apply Hsome; assumption|]); (split; [apply Hsome; assumption|]);
    (split; [first [intros _; apply Hsome; assumption | discriminate]|]);
    (split; [first [discriminate | intros _ b ->; reflexivity]|]);
    first [discriminate | intros _ ->; reflexivity].
Qed.

(** ** The paths of [fetchResource] *)

Section Paths.
Variable origin : Origin.
Variable o : FetchOptions.t.

Let ttl := FetchOptions.ttlSeconds o.
Let source := FetchOptions.source o.
Let path := FetchOptions.path o.
Let k := key_of o.

(** A fresh entry is returned from the store, and only the store's order
    of use changes. *)
Lemma fetchResource_fresh w :
  isFresh k w = true ->
  exists s, LRUCache.find_slot k (cache w) = Some s
    /\ fetchResource origin o w
       = (Return (served source (LRUCache.value s)
                    (nullish (CacheEntry.statusCode (LRUCache.value s)) 200) false),
          looked_up k w).
Proof.
  unfold isFresh. intros Hf.
  destruct (LRUCache.find_slot k (cache w)) as [s|] eqn:F.
  2:{ unfold LRUCache.getRemainingTTL in Hf. rewrite F in Hf. discriminate. }
  exists s. split; [reflexivity|].
  unfold fetchResource, bind, cache_get, cache_getRemainingTTL, looked_up.
  change (cacheKey (FetchOptions.source o) (FetchOptions.path o)) with k.
  pose proof (Hv := get_value k (now w) (cache w)).
  pose proof (Hr := remaining_after_get k (now w) (cache w)).
  destruct (LRUCache.get k (now w) (cache w)) as [v c'] eqn:G.
  cbn [fst snd now cache with_cache] in *.
  unfold LRUCache.stored in Hv. rewrite F in Hv. simpl in Hv. subst v.
  rewrite Hr, Hf. reflexivity.
Qed.

(** Otherwise the call goes to the origin with what the lookup found. *)
Lemma fetchResource_not_fresh w :
  isFresh k w = false ->
  fetchResource origin o w
  = fetchFromOrigin origin ttl source path k (LRUCache.stored k (cache w)) (looked_up k w).
Proof.
  unfold isFresh. intros Hf.
  unfold fetchResource, bind, cache_get, cache_getRemainingTTL, looked_up.
  change (cacheKey (FetchOptions.source o) (FetchOptions.path o)) with k.
  pose proof (Hv := get_value k (now w) (cache w)).
  pose proof (Hr := remaining_after_get k (now w) (cache w)).
  destruct (LRUCache.get k (now w) (cache w)) as [v c'] eqn:G.
  cbn [fst snd now cache with_cache] in *.
  subst v. rewrite Hr, Hf.
  destruct (LRUCache.stored k (cache w)); reflexivity.
Qed.

(** With the identifiers known, one request is sent, carrying the
    validator of the entry, and the call continues with its outcome. *)
Lemma fetchFromOrigin_configured cached w :
  configured w = true ->
  exists url w0,
    cache w0 = cache w /\ now w0 = now w /\ sent w0 = sent w /\
    let rq := Request.mk url "GET" (conditional_headers cached) in
    fetchFromOrigin origin ttl source path k cached w
    = match reply (origin rq) with
      | Responded resp =>
          handleResponse ttl source path k cached resp (exchanged rq (origin rq) w0)
      | Failed msg => (Throw (RequestError msg), exchanged rq (origin rq) w0)
      end.
Proof.
  intros Hc.
  destruct (originUrl_configured path w Hc) as [url Hu].
  destruct (originUrl_frame path w) as (Hcache & Hnow & Hsent & _).
  destruct (originUrl path w) as [r w0] eqn:U. simpl in *. subst r.
  exists url, w0. repeat split; try assumption.
  unfold fetchFromOrigin, bind. rewrite U. unfold request.
  destruct (reply (origin _)); reflexivity.
Qed.

(** Without them the call fails before anything is sent. *)
Lemma fetchFromOrigin_missing cached w :
  configured w = false ->
  exists name w',
    (name = "GITHUB_OWNER" \/ name = "GITHUB_REPO")
    /\ fetchFromOrigin origin ttl source path k cached w
       = (Throw (PlainError ("Missing required environment variable: " ++ name)), w')
    /\ cache w' = cache w /\ sent w' = sent w.
Proof.
  intros Hc.
  destruct (originUrl_missing path w Hc) as [name [Hname Hu]].
  destruct (originUrl_frame path w) as (Hcache & Hnow & Hsent & _).
  destruct (originUrl path w) as [r w0] eqn:U. simpl in *. subst r.
  exists name, w0. repeat split; try assumption.
  unfold fetchFromOrigin, bind. rewrite U. reflexivity.
Qed.

End Paths.

(** ** The branches on the status *)

(** [handleResponse], branch by branch. *)
Lemma handleResponse_cases ttl source path k cached resp w :
  let st := Response.statusCode resp in
  let stored_new :=
    (Return (FetchResult.mk (Buffer_from (Response.text resp))
               (CacheEntry.etag (newEntry resp)) (CacheEntry.lastModified (newEntry resp))
               (CacheEntry.contentType (newEntry resp))
               (GithubFetchMetrics.mk false (Some st) false source)),
     with_cache w (LRUCache.set k (newEntry resp) (ttl * 1000) (now w) (cache w))) in
  handleResponse ttl source path k cached resp w
  = match cached with
    | Some c =>
        if st =? 304 then
          (Return (served source c 304 false),
           with_cache w (LRUCache.set k (CacheEntry.with_statusCode c 304) (ttl * 1000)
                           (now w) (cache w)))
        else if 400 <=? st then (Return (served source c st true), w)
        else stored_new
    | None =>
        if st =? 404 then
          (Throw (UpstreamNotFoundError ("Resource not found upstream: " ++ path)), w)
        else if 400 <=? st then
          (Throw (UpstreamUnavailableError ("Upstream request failed for " ++ path) st), w)
        else stored_new
    end.
Proof.
  intros st stored_new. unfold handleResponse. fold st.
  destruct cached as [c|].
  - destruct (st =? 304) eqn:E304.
    + apply Z.eqb_eq in E304. rewrite E304. reflexivity.
    + destruct (st =? 404) eqn:E404.
      * apply Z.eqb_eq in E404. rewrite E404. reflexivity.
      * destruct (400 <=? st); reflexivity.
  - subst stored_new.
    destruct (st =? 304); destruct (st =? 404); destruct (400 <=? st); reflexivity.
Qed.

(** ** Lemmas on a whole call *)

Lemma stored_none_not_fresh k w :
  LRUCache.stored k (cache w) = None -> isFresh k w = false.
Proof.
  unfold LRUCache.stored, isFresh, LRUCache.getRemainingTTL.
  destruct (LRUCache.find_slot k (cache w)); [discriminate|reflexivity].
Qed.

Lemma looked_up_none k w :
  LRUCache.stored k (cache w) = None -> looked_up k w = with_cache w (cache w).
Proof.
  unfold LRUCache.stored, looked_up, LRUCache.get.
  destruct (LRUCache.find_slot k (cache w)); [discriminate|reflexivity].
Qed.

Lemma conditional_headers_etag c E :
  CacheEntry.etag c = Some E -> E <> EmptyString ->
  conditional_headers (Some c) = [("If-None-Match", E)].
Proof.
  intros He Hne. unfold conditional_headers. rewrite He. simpl.
  destruct (String.eqb_spec E EmptyString); [contradiction|reflexivity].
Qed.

(** ** What a call does to the store

    Every call takes one of three ways with the store: it stores nothing
    (fresh hit, stale entry served, or failure); it stores the entry it
    found again, with status 304 and a new clock; or it stores the body of
    a response whose status is below 400. *)
Lemma fetchResource_paths (origin : Origin) (o : FetchOptions.t) (w : World) :
  let k := key_of o in
  let ttl_ms := FetchOptions.ttlSeconds o * 1000 in
  let res := fst (fetchResource origin o w) in
  let w' := snd (fetchResource origin o w) in
  let cg := cache (looked_up k w) in
  (cache w' = cg
   /\ forall r, res = Return r ->
        exists c, LRUCache.stored k (cache w) = Some c
                  /\ FetchResult.buffer r = CacheEntry.body c)
  \/ (exists c rq resp,
        LRUCache.stored k (cache w) = Some c
        /\ reply (origin rq) = Responded resp
        /\ Response.statusCode resp = 304
        /\ sent w' = (sent w ++ [rq])%list
        /\ res = Return (served (FetchOptions.source o) c 304 false)
        /\ cache w' = LRUCache.set k (CacheEntry.with_statusCode c 304) ttl_ms (now w') cg)
  \/ (exists rq resp,
        reply (origin rq) = Responded resp
        /\ Response.statusCode resp < 400
        /\ (Response.statusCode resp <> 304 \/ LRUCache.stored k (cache w) = None)
        /\ sent w' = (sent w ++ [rq])%list
        /\ (exists r, res = Return r
                      /\ FetchResult.buffer r = Buffer_from (Response.text resp))
        /\ cache w' = LRUCache.set k (newEntry resp) ttl_ms (now w') cg).
Proof.
  cbv zeta.
  destruct (isFresh (key_of o) w) eqn:Hf.
  - destruct (fetchResource_fresh origin o w Hf) as (s & F & Hrun).
    rewrite Hrun. left. split; [reflexivity|].
    intros r [= <-]. exists (LRUCache.value s). split; [|reflexivity].
    unfold LRUCache.stored. rewrite F. reflexivity.
  - rewrite (fetchResource_not_fresh origin o w Hf).
    destruct (configured w) eqn:Hc.
    2:{ destruct (fetchFromOrigin_missing origin o (LRUCache.stored (key_of o) (cache w))
                    (looked_up (key_of o) w) Hc) as (name & w1 & _ & Hrun & Hcache & _).
        rewrite Hrun. left. split; [exact Hcache|discriminate]. }
    destruct (fetchFromOrigin_configured origin o (LRUCache.stored (key_of o) (cache w))
                (looked_up (key_of o) w) Hc) as (url & w0 & Hcache & Hnow & Hsent & Hrun).
    cbv zeta in Hrun. rewrite Hrun. clear Hrun.
    set (rq := Request.mk url "GET" (conditional_headers (LRUCache.stored (key_of o) (cache w)))).
    destruct (reply (origin rq)) as [resp|msg] eqn:Hreply.
    2:{ left. split; [exact Hcache|discriminate]. }
    rewrite handleResponse_cases.
    assert (Hs : sent (exchanged rq (origin rq) w0) = (sent w ++ [rq])%list).
    { simpl. rewrite Hsent. reflexivity. }
    destruct (LRUCache.stored (key_of o) (cache w)) as [c|] eqn:Hst.
    + destruct (Response.statusCode resp =? 304) eqn:E304.
      * right; left. exists c, rq, resp. apply Z.eqb_eq in E304.
        repeat split; try assumption. simpl. rewrite Hcache. reflexivity.
      * destruct (400 <=? Response.statusCode resp) eqn:E400.
        -- left. split; [exact Hcache|]. intros r [= <-]. exists c. split; reflexivity.
        -- right; right. exists rq, resp. apply Z.leb_gt in E400. apply Z.eqb_neq in E304.
           repeat split; try assumption; [left; assumption|eexists; split; reflexivity|].
           simpl. rewrite Hcache. reflexivity.
    + destruct (Response.statusCode resp =? 404) eqn:E404.
      { left. split; [exact Hcache|discriminate]. }
      destruct (400 <=? Response.statusCode resp) eqn:E400.
      { left. split; [exact Hcache|discriminate]. }
      right; right. exists rq, resp. apply Z.leb_gt in E400.
      repeat split; try assumption; [right; reflexivity|eexists; split; reflexivity|].
      simpl. rewrite Hcache. reflexivity.
Qed.

(** The payload a call returns is the payload it leaves in the store. *)
Lemma returned_payload_is_stored (origin : Origin) (o : FetchOptions.t) (w w1 : World)
    (r1 : FetchResult.t) (c : CacheEntry.t) :
  fetchResource origin o w = (Return r1, w1) ->
  LRUCache.stored (key_of o) (cache w1) = Some c ->
  CacheEntry.body c = FetchResult.buffer r1.
Proof.
  intros Hrun Hst.
  pose proof (fetchResource_paths origin o w) as P. cbv zeta in P.
  rewrite Hrun in P. cbn [fst snd] in P.
  destruct P as [[Hcache Hret] | [(c0 & rq & resp & Hs0 & _ & _ & _ & Hres & Hcache)
                                 | (rq & resp & _ & _ & _ & _ & (r & Hres & Hbuf) & Hcache)]].
  - destruct (Hret r1 eq_refl) as (c0 & Hs0 & Hb). rewrite Hb.
    rewrite Hcache in Hst.
    apply (no_write_stored (cache w)) in Hst; [|apply get_no_write].
    congruence.
  - rewrite Hcache, stored_set_same in Hst. injection Hst as <-.
    injection Hres as Hr. subst r1. reflexivity.
  - rewrite Hcache, stored_set_same in Hst. injection Hst as <-.
    injection Hres as Hr. subst r1. rewrite Hbuf. reflexivity.
Qed.

(** A call that went to the origin and did not serve a stale entry has
    stored an entry under its key, with the clock of the entry started when
    the call ended. *)
Lemma call_restarts_clock (origin : Origin) (o : FetchOptions.t) (w w1 : World)
    (r1 : FetchResult.t) :
  fetchResource origin o w = (Return r1, w1) ->
  sent w1 <> sent w ->
  GithubFetchMetrics.servedStale (FetchResult.metrics r1) = false ->
  exists e,
    LRUCache.find_slot (key_of o) (cache w1)
    = Some (LRUCache.mkSlot (key_of o) e (now w1) (FetchOptions.ttlSeconds o * 1000)).
Proof.
  intros Hrun Hsent Hstale.
  destruct (isFresh (key_of o) w) eqn:Hf.
  { exfalso. apply Hsent.
    destruct (fetchResource_fresh origin o w Hf) as (s & _ & Hfr).
    rewrite Hfr in Hrun. injection Hrun as _ <-. reflexivity. }
  rewrite (fetchResource_not_fresh origin o w Hf) in Hrun.
  destruct (configured w) eqn:Hc.
  2:{ destruct (fetchFromOrigin_missing origin o (LRUCache.stored (key_of o) (cache w))
                  (looked_up (key_of o) w) Hc) as (name & w0 & _ & Hthrow & _).
      rewrite Hthrow in Hrun. discriminate. }
  destruct (fetchFromOrigin_configured origin o (LRUCache.stored (key_of o) (cache w))
              (looked_up (key_of o) w) Hc) as (url & w0 & _ & _ & _ & Hgo).
  cbv zeta in Hgo. rewrite Hgo in Hrun. clear Hgo.
  destruct (reply (origin _)) as [resp|msg]; [|discriminate].
  rewrite handleResponse_cases in Hrun.
  destruct (LRUCache.stored (key_of o) (cache w)) as [c|];
    destruct (Response.statusCode resp =? 304);
    destruct (Response.statusCode resp =? 404);
    destruct (400 <=? Response.statusCode resp);
    try discriminate;
    injection Hrun as <- <-;
    try discriminate Hstale;
    eexists; cbn [cache now with_cache]; apply set_found.
Qed.

(** ** The fetch, claim by claim

    In the statements below, that the origin answers a call means two
    things: the identifiers are known ([configured]), so that the call
    gets as far as sending its request, and the reply of the origin to
    that request is the one named. *)




(** C2, as the code has it.  When [fetchResource] is called twice for the
    same (source, path), the second call being made while the entry in the
    store still has freshness left, which is the case in particular when
    the first call fetched or revalidated the resource at the origin (it
    sent its request and its result is not served stale) and the second is
    made less than the time to live after the first returned, or at any
    time when the time to live is 0, and the store at the second call is
    as the first call left it (no clear, no eviction), the second call
    sends nothing to the origin and returns the payload of the first, byte
    for byte, with provenance cacheHit = true, servedStale = false and
    upstreamStatus the status recorded in the entry, or 200 when none
    is. *)
Theorem second_fetch_within_ttl_is_fresh_hit
    (origin1 origin2 : Origin) (o : FetchOptions.t) (w w1 w2 : World)
    (r1 : FetchResult.t) :
  fetchResource origin1 o w = (Return r1, w1) ->
  cache w2 = cache w1 ->
  (sent w1 <> sent w
   /\ GithubFetchMetrics.servedStale (FetchResult.metrics r1) = false
   /\ (FetchOptions.ttlSeconds o = 0
       \/ now w2 - now w1 < FetchOptions.ttlSeconds o * 1000))
  \/ isFresh (key_of o) w2 = true ->
  exists c r2 w2',
    LRUCache.stored (key_of o) (cache w1) = Some c
    /\ isFresh (key_of o) w2 = true
    /\ fetchResource origin2 o w2 = (Return r2, w2')
    /\ sent w2' = sent w2
    /\ FetchResult.buffer r2 = FetchResult.buffer r1
    /\ FetchResult.metrics r2
       = GithubFetchMetrics.mk true (Some (nullish (CacheEntry.statusCode c) 200)) false
           (FetchOptions.source o).
Proof.
  intros Hfirst Hsame Hwithin.
  assert (Hfresh : isFresh (key_of o) w2 = true).
  { destruct Hwithin as [(Hsent & Hstale & Htime) | Hf]; [|exact Hf].
    destruct (call_restarts_clock origin1 o w w1 r1 Hfirst Hsent Hstale) as [e F].
    unfold isFresh. rewrite Hsame. apply positive_remaining.
    eexists. split; [exact F|]. cbn [LRUCache.ttl LRUCache.start]. lia. }
  destruct (fetchResource_fresh origin2 o w2 Hfresh) as (s & F & Hrun).
  assert (Hst : LRUCache.stored (key_of o) (cache w1) = Some (LRUCache.value s)).
  { rewrite <- Hsame. unfold LRUCache.stored. rewrite F. reflexivity. }
  exists (LRUCache.value s). eexists _, _. split; [exact Hst|].
  split; [exact Hfresh|]. split; [exact Hrun|].
  repeat split.
  apply (returned_payload_is_stored origin1 o w w1 r1 _ Hfirst Hst).
Qed.

Lemma second_fetch_within_ttl_is_fresh_hit_witness :
  let first := fetchResource (Sample.answers 200 [("etag", One "etag-1")] Sample.vesu)
                 Sample.opts Sample.world0 in
  let second := later 999 (snd first) in
  exists c r2 w2',
    LRUCache.stored (key_of Sample.opts) (cache (snd first)) = Some c
    /\ isFresh (key_of Sample.opts) second = true
    /\ fetchResource Sample.unreachable Sample.opts second = (Return r2, w2')
    /\ sent w2' = sent second
    /\ FetchResult.buffer r2 = Buffer_from Sample.vesu
    /\ FetchResult.metrics r2
       = GithubFetchMetrics.mk true (Some (nullish (CacheEntry.statusCode c) 200)) false
           (FetchOptions.source Sample.opts).
Proof.
  intros first second.
  apply (second_fetch_within_ttl_is_fresh_hit
           (Sample.answers 200 [("etag", One "etag-1")] Sample.vesu) Sample.unreachable
           Sample.opts Sample.world0 (snd first) second
           (FetchResult.mk (Buffer_from Sample.vesu) (Some "etag-1") None None
              (GithubFetchMetrics.mk false (Some 200) false (FetchOptions.source Sample.opts)))).
  - reflexivity.
  - reflexivity.
  - left. split; [discriminate|]. split; [reflexivity|]. right. reflexivity.
Defined.

(** C2 fails as stated: two calls less than the time to live apart, with
    no clear and no eviction between them, and yet the second goes to the
    origin.  First, the first call serves an overdue entry on a 502: the
    entry is not made fresh, and the lookup has dropped it from the store,
    or left it overdue where the store keeps such entries.  Second, the
    first call is itself a fresh hit late in the life of the entry: it
    does not restart the clock, so the entry runs out between the two
    calls. *)
Lemma second_fetch_counterexample :
  let ttl_ms := FetchOptions.ttlSeconds Sample.opts * 1000 in
  (forall keep,
     let first := fetchResource (Sample.answers 502 [] "bad gateway") Sample.opts
                    (Sample.stale_world keep) in
     let second := fetchResource Sample.unreachable Sample.opts (later 200 (snd first)) in
     fst first = Return (served (FetchOptions.source Sample.opts) Sample.old_entry 502 true)
     /\ 200 < ttl_ms
     /\ cache (later 200 (snd first)) = cache (snd first)
     /\ fst second = Throw (RequestError "connect ECONNREFUSED")
     /\ List.length (sent (snd second)) = S (List.length (sent (later 200 (snd first)))))
  /\ (let stored := snd (fetchResource (Sample.answers 200 [("etag", One "etag-1")] Sample.vesu)
                            Sample.opts Sample.world0) in
      let first := fetchResource Sample.unreachable Sample.opts (later 900 stored) in
      let second := fetchResource Sample.unreachable Sample.opts (later 200 (snd first)) in
      fst first
      = Return (served (FetchOptions.source Sample.opts)
                  (newEntry (Response.mk 200 [("etag", One "etag-1")] Sample.vesu)) 200 false)
      /\ sent (snd first) = sent stored
      /\ 200 < ttl_ms
      /\ cache (later 200 (snd first)) = cache (snd first)
      /\ fst second = Throw (RequestError "connect ECONNREFUSED")
      /\ List.length (sent (snd second)) = S (List.length (sent (later 200 (snd first))))).
Proof.
  split.
  - intros []; repeat split.
  - repeat split.
Qed.

(** After [invalidateCache()] the second call finds nothing, and once the
    time to live has passed the entry it finds is overdue: in both cases it
    goes to the origin. *)
Example second_fetch_after_clear :
  let first := fetchResource (Sample.answers 200 [("etag", One "etag-1")] Sample.vesu)
                 Sample.opts Sample.world0 in
  fst (fetchResource Sample.unreachable Sample.opts (snd (invalidateCache (snd first))))
  = Throw (RequestError "connect ECONNREFUSED").
Proof. reflexivity. Qed.

Example second_fetch_after_ttl :
  let first := fetchResource (Sample.answers 200 [("etag", One "etag-1")] Sample.vesu)
                 Sample.opts Sample.world0 in
  isFresh (key_of Sample.opts) (later 1000 (snd first)) = false
  /\ fst (fetchResource Sample.unreachable Sample.opts (later 1000 (snd first)))
     = Throw (RequestError "connect ECONNREFUSED").
Proof. split; reflexivity. Qed.

(** C3. With an entry in the store whose time to live has run out, an
    answer of the origin with any status of 400 or more (404 included)
    makes [fetchResource] return the stored payload, unchanged, with
    provenance cacheHit = true, servedStale = true and upstreamStatus the
    status observed; no error is raised. *)
Theorem stale_entry_served_on_error_status
    (origin : Origin) (o : FetchOptions.t) (w : World) (c : CacheEntry.t)
    (resp : Response.t) :
  LRUCache.stored (key_of o) (cache w) = Some c ->
  isFresh (key_of o) w = false ->
  configured w = true ->
  (forall rq, reply (origin rq) = Responded resp) ->
  400 <= Response.statusCode resp ->
  exists r w',
    fetchResource origin o w = (Return r, w')
    /\ FetchResult.buffer r = CacheEntry.body c
    /\ FetchResult.metrics r
       = GithubFetchMetrics.mk true (Some (Response.statusCode resp)) true
           (FetchOptions.source o).
Proof.
  intros Hs Hf Hc Ho Hst.
  rewrite (fetchResource_not_fresh origin o w Hf).
  destruct (fetchFromOrigin_configured origin o (LRUCache.stored (key_of o) (cache w))
              (looked_up (key_of o) w) Hc) as (url & w0 & _ & _ & _ & Hrun).
  cbv zeta in Hrun. rewrite Hrun, Ho, handleResponse_cases, Hs.
  replace (Response.statusCode resp =? 304) with false by (symmetry; apply Z.eqb_neq; lia).
  replace (400 <=? Response.statusCode resp) with true by (symmetry; apply Z.leb_le; lia).
  eexists _, _. repeat split.
Qed.

Lemma stale_entry_served_on_error_status_witness :
  exists r w',
    fetchResource (Sample.answers 502 [] "bad gateway") Sample.opts (Sample.stale_world false)
    = (Return r, w')
    /\ FetchResult.buffer r = CacheEntry.body Sample.old_entry
    /\ FetchResult.metrics r
       = GithubFetchMetrics.mk true (Some 502) true (FetchOptions.source Sample.opts).
Proof.
  apply (stale_entry_served_on_error_status
           (Sample.answers 502 [] "bad gateway") Sample.opts (Sample.stale_world false)
           Sample.old_entry (Response.mk 502 [] "bad gateway")).
  - reflexivity.
  - reflexivity.
  - reflexivity.
  - intros rq. reflexivity.
  - simpl. lia.
Defined.

(** C4. With an entry in the store carrying the entity tag E, when the
    origin answers the conditional request (the one carrying
    If-None-Match: E) with 304, [fetchResource] restarts the entry's
    time-to-live clock without altering its payload, and returns that
    payload with provenance cacheHit = true, servedStale = false,
    upstreamStatus = 304.  The freshness left is then the whole time to
    live, without end when the time to live is 0, so that the entry is
    fresh again whenever the time to live is not negative. *)
Theorem revalidation_extends_freshness
    (origin : Origin) (o : FetchOptions.t) (w : World) (c : CacheEntry.t) (E : string)
    (resp : Response.t) :
  LRUCache.stored (key_of o) (cache w) = Some c ->
  CacheEntry.etag c = Some E ->
  E <> EmptyString ->
  isFresh (key_of o) w = false ->
  configured w = true ->
  (forall rq, In ("If-None-Match", E) (Request.headers rq) ->
              reply (origin rq) = Responded resp) ->
  Response.statusCode resp = 304 ->
  exists r w',
    fetchResource origin o w = (Return r, w')
    /\ FetchResult.buffer r = CacheEntry.body c
    /\ FetchResult.metrics r
       = GithubFetchMetrics.mk true (Some 304) false (FetchOptions.source o)
    /\ LRUCache.find_slot (key_of o) (cache w')
       = Some (LRUCache.mkSlot (key_of o) (CacheEntry.with_statusCode c 304) (now w')
                 (FetchOptions.ttlSeconds o * 1000))
    /\ option_map CacheEntry.body (LRUCache.stored (key_of o) (cache w'))
       = Some (CacheEntry.body c)
    /\ LRUCache.getRemainingTTL (key_of o) (now w') (cache w')
       = (if FetchOptions.ttlSeconds o =? 0 then LRUCache.Infinity
          else LRUCache.Finite (FetchOptions.ttlSeconds o * 1000))
    /\ (0 <= FetchOptions.ttlSeconds o -> isFresh (key_of o) w' = true).
Proof.
  intros Hs He Hne Hf Hc Ho Hst.
  rewrite (fetchResource_not_fresh origin o w Hf).
  destruct (fetchFromOrigin_configured origin o (LRUCache.stored (key_of o) (cache w))
              (looked_up (key_of o) w) Hc) as (url & w0 & _ & _ & _ & Hrun).
  cbv zeta in Hrun. rewrite Hrun, Hs, Ho, handleResponse_cases, Hst; clear Hrun.
  2:{ cbn [Request.headers]. rewrite (conditional_headers_etag c E He Hne).
      left. reflexivity. }
  simpl (304 =? 304).
  eexists _, _. split; [reflexivity|].
  cbn [cache now with_cache FetchResult.buffer FetchResult.metrics served].
  unfold isFresh, LRUCache.stored, LRUCache.getRemainingTTL.
  cbn [cache now with_cache]. rewrite set_found.
  cbn [option_map LRUCache.value LRUCache.ttl LRUCache.start CacheEntry.body
         CacheEntry.with_statusCode].
  replace (FetchOptions.ttlSeconds o * 1000 =? 0) with (FetchOptions.ttlSeconds o =? 0)
    by (destruct (Z.eqb_spec (FetchOptions.ttlSeconds o) 0);
        [symmetry; apply Z.eqb_eq|symmetry; apply Z.eqb_neq]; lia).
  repeat split.
  - destruct (FetchOptions.ttlSeconds o =? 0); [reflexivity|f_equal; lia].
  - intros Hpos. destruct (Z.eqb_spec (FetchOptions.ttlSeconds o) 0); [reflexivity|].
    apply Z.ltb_lt. lia.
Qed.

Lemma revalidation_extends_freshness_witness :
  exists r w',
    fetchResource (Sample.answers 304 [("etag", One "etag-1")] EmptyString) Sample.opts
      (Sample.stale_world false)
    = (Return r, w')
    /\ FetchResult.buffer r = CacheEntry.body Sample.old_entry
    /\ FetchResult.metrics r
       = GithubFetchMetrics.mk true (Some 304) false (FetchOptions.source Sample.opts)
    /\ LRUCache.find_slot (key_of Sample.opts) (cache w')
       = Some (LRUCache.mkSlot (key_of Sample.opts)
                 (CacheEntry.with_statusCode Sample.old_entry 304) (now w')
                 (FetchOptions.ttlSeconds Sample.opts * 1000))
    /\ option_map CacheEntry.body (LRUCache.stored (key_of Sample.opts) (cache w'))
       = Some (CacheEntry.body Sample.old_entry)
    /\ LRUCache.getRemainingTTL (key_of Sample.opts) (now w') (cache w')
       = (if FetchOptions.ttlSeconds Sample.opts =? 0 then LRUCache.Infinity
          else LRUCache.Finite (FetchOptions.ttlSeconds Sample.opts * 1000))
    /\ (0 <= FetchOptions.ttlSeconds Sample.opts -> isFresh (key_of Sample.opts) w' = true).
Proof.
  apply (revalidation_extends_freshness
           (Sample.answers 304 [("etag", One "etag-1")] EmptyString) Sample.opts
           (Sample.stale_world false) Sample.old_entry "etag-1"
           (Response.mk 304 [("etag", One "etag-1")] EmptyString)).
  - reflexivity.
  - reflexivity.
  - discriminate.
  - reflexivity.
  - reflexivity.
  - intros rq _. reflexivity.
  - reflexivity.
Defined.

(** C5. With no entry in the store, a 404 of the origin makes
    [fetchResource] fail with [UpstreamNotFoundError]: no payload is
    returned and the store is left as it was, no entry created. *)
Theorem first_miss_not_found
    (origin : Origin) (o : FetchOptions.t) (w : World) (resp : Response.t) :
  LRUCache.stored (key_of o) (cache w) = None ->
  configured w = true ->
  (forall rq, reply (origin rq) = Responded resp) ->
  Response.statusCode resp = 404 ->
  exists w',
    fetchResource origin o w
    = (Throw (UpstreamNotFoundError ("Resource not found upstream: " ++ FetchOptions.path o)),
       w')
    /\ cache w' = cache w
    /\ LRUCache.stored (key_of o) (cache w') = None.
Proof.
  intros Hs Hc Ho Hst.
  rewrite (fetchResource_not_fresh origin o w (stored_none_not_fresh _ _ Hs)).
  destruct (fetchFromOrigin_configured origin o (LRUCache.stored (key_of o) (cache w))
              (looked_up (key_of o) w) Hc) as (url & w0 & Hcache & _ & _ & Hrun).
  cbv zeta in Hrun. rewrite Hrun, Ho, handleResponse_cases, Hs, Hst.
  rewrite (looked_up_none _ _ Hs) in Hcache. simpl in Hcache.
  eexists. split; [reflexivity|]. simpl. rewrite Hcache. auto.
Qed.

Lemma first_miss_not_found_witness :
  exists w',
    fetchResource (Sample.answers 404 [] "Not Found") Sample.opts Sample.world0
    = (Throw (UpstreamNotFoundError
                ("Resource not found upstream: " ++ FetchOptions.path Sample.opts)), w')
    /\ cache w' = cache Sample.world0
    /\ LRUCache.stored (key_of Sample.opts) (cache w') = None.
Proof.
  apply (first_miss_not_found (Sample.answers 404 [] "Not Found") Sample.opts Sample.world0
           (Response.mk 404 [] "Not Found")).
  - reflexivity.
  - reflexivity.
  - intros rq. reflexivity.
  - reflexivity.
Defined.

(** C6, as the code has it.  The payload stored under a key is replaced
    only by the handling of a response to a call for that key, and only in
    two ways: a response whose status is below 400 and which is not taken
    as a revalidation (any status below 400 other than 304, or a 304
    answered to a call whose lookup found no entry) stores its body; a 304
    answered to a call whose lookup found an entry stores the payload of
    that entry again.  The statement takes a call apart at the points
    where it awaits, each part running on the store as it finds it, so
    that it holds however calls are interleaved: the lookup, the building
    of the URL and the request, failed or not, replace no payload; the
    handling of a response replaces one in the two ways above only (the
    last branch awaits the body of the response before it stores it: the
    store it writes to is the one it finds then).  In a
    call that runs from its lookup to its end with no other call in
    between, the entry stored again on a 304 is the one the store held, so
    the payload is replaced only by a response whose status is below 400
    and is not 304. *)
Theorem payload_replaced_only_below_400
    (origin : Origin) (o : FetchOptions.t) (w : World) (k : string)
    (e e' : CacheEntry.t) :
  LRUCache.stored k (cache w) = Some e ->
  CacheEntry.body e' <> CacheEntry.body e ->
  (* a call with no other call between its lookup and its end *)
  (LRUCache.stored k (cache (snd (fetchResource origin o w))) = Some e' ->
   k = key_of o
   /\ exists rq resp,
        sent (snd (fetchResource origin o w)) = (sent w ++ [rq])%list
        /\ reply (origin rq) = Responded resp
        /\ Response.statusCode resp < 400
        /\ Response.statusCode resp <> 304
        /\ CacheEntry.body e' = Buffer_from (Response.text resp))
  (* the lookup *)
  /\ LRUCache.stored k (cache (looked_up (key_of o) w)) <> Some e'
  (* the request, with whatever entry the lookup had found *)
  /\ (forall cached,
        LRUCache.stored k
          (cache (snd ((url <- originUrl (FetchOptions.path o) ;;
                        request origin url (conditional_headers cached)) w)))
        <> Some e')
  (* the response, with whatever entry the lookup had found *)
  /\ (forall cached resp,
        LRUCache.stored k
          (cache (snd (handleResponse (FetchOptions.ttlSeconds o) (FetchOptions.source o)
                         (FetchOptions.path o) (key_of o) cached resp w)))
        = Some e' ->
        k = key_of o
        /\ ((Response.statusCode resp < 400
             /\ (Response.statusCode resp <> 304 \/ cached = None)
             /\ CacheEntry.body e' = Buffer_from (Response.text resp))
            \/ (Response.statusCode resp = 304
                /\ exists c, cached = Some c /\ CacheEntry.body e' = CacheEntry.body c))).
Proof.
  intros He Hne.
  assert (Hsame : forall c, cache c = cache w -> LRUCache.stored k (cache c) <> Some e').
  { intros c -> H. congruence. }
  split; [|split; [|split]].
  - intros He'.
    pose proof (fetchResource_paths origin o w) as P. cbv zeta in P.
    assert (Hg : forall x, LRUCache.stored k (cache (looked_up (key_of o) w)) = Some x ->
                           x = e).
    { intros x Hx. apply (no_write_stored (cache w)) in Hx; [|apply get_no_write].
      congruence. }
    destruct P as [[Hcache _] | [(c0 & rq & resp & Hs0 & _ & _ & _ & _ & Hcache)
                                | (rq & resp & Hr & Hlt & H304 & Hsent & _ & Hcache)]].
    + rewrite Hcache in He'. apply Hg in He'. congruence.
    + rewrite Hcache in He'.
      destruct (String.eqb_spec k (key_of o)) as [->|Hk].
      * rewrite stored_set_same in He'. injection He' as <-.
        exfalso. apply Hne. simpl. congruence.
      * apply stored_set_other in He'; [|exact Hk]. apply Hg in He'. congruence.
    + rewrite Hcache in He'.
      destruct (String.eqb_spec k (key_of o)) as [->|Hk].
      * rewrite stored_set_same in He'. injection He' as <-.
        split; [reflexivity|]. exists rq, resp. repeat split; try assumption.
        destruct H304 as [H|H]; [exact H|congruence].
      * apply stored_set_other in He'; [|exact Hk]. apply Hg in He'. congruence.
  - intros Hx. apply (no_write_stored (cache w)) in Hx; [|apply get_no_write].
    congruence.
  - intros cached. apply Hsame.
    destruct (originUrl_frame (FetchOptions.path o) w) as (Hcache & _).
    unfold bind. destruct (originUrl (FetchOptions.path o) w) as [[url|err] w0];
      cbn [snd] in *; [|exact Hcache].
    unfold request. destruct (reply (origin _)); exact Hcache.
  - intros cached resp He'. rewrite handleResponse_cases in He'.
    assert (Hset : forall v,
               LRUCache.stored k
                 (LRUCache.set (key_of o) v (FetchOptions.ttlSeconds o * 1000) (now w) (cache w))
               = Some e' ->
               k = key_of o /\ e' = v).
    { intros v Hv. destruct (String.eqb_spec k (key_of o)) as [->|Hk].
      - rewrite stored_set_same in Hv. injection Hv as <-. split; reflexivity.
      - apply stored_set_other in Hv; [|exact Hk]. congruence. }
    destruct cached as [c|].
    + destruct (Response.statusCode resp =? 304) eqn:E304.
      * apply Z.eqb_eq in E304. cbn [snd cache with_cache] in He'.
        apply Hset in He' as [-> ->].
        split; [reflexivity|]. right. split; [exact E304|]. exists c. split; reflexivity.
      * destruct (400 <=? Response.statusCode resp) eqn:E400;
          cbn [snd cache with_cache] in He'; [congruence|].
        apply Z.leb_gt in E400. apply Z.eqb_neq in E304.
        apply Hset in He' as [-> ->].
        split; [reflexivity|]. left. repeat split; [exact E400|left; exact E304].
    + destruct (Response.statusCode resp =? 404) eqn:E404;
        cbn [snd cache with_cache] in He'; [congruence|].
      destruct (400 <=? Response.statusCode resp) eqn:E400;
        cbn [snd cache with_cache] in He'; [congruence|].
      apply Z.leb_gt in E400. apply Hset in He' as [-> ->].
      split; [reflexivity|]. left. repeat split; [exact E400|right; reflexivity].
Qed.

Lemma payload_replaced_only_below_400_witness :
  let fresh_body := Sample.answers 200 [] "[]" in
  let e' := newEntry (Response.mk 200 [] "[]") in
  let w := Sample.stale_world false in
  (LRUCache.stored Sample.key0 (cache (snd (fetchResource fresh_body Sample.opts w))) = Some e' ->
   Sample.key0 = key_of Sample.opts
   /\ exists rq resp,
        sent (snd (fetchResource fresh_body Sample.opts w)) = (sent w ++ [rq])%list
        /\ reply (fresh_body rq) = Responded resp
        /\ Response.statusCode resp < 400
        /\ Response.statusCode resp <> 304
        /\ CacheEntry.body e' = Buffer_from (Response.text resp))
  /\ LRUCache.stored Sample.key0 (cache (looked_up (key_of Sample.opts) w)) <> Some e'
  /\ (forall cached,
        LRUCache.stored Sample.key0
          (cache (snd ((url <- originUrl (FetchOptions.path Sample.opts) ;;
                        request fresh_body url (conditional_headers cached)) w)))
        <> Some e')
  /\ (forall cached resp,
        LRUCache.stored Sample.key0
          (cache (snd (handleResponse (FetchOptions.ttlSeconds Sample.opts)
                         (FetchOptions.source Sample.opts) (FetchOptions.path Sample.opts)
                         (key_of Sample.opts) cached resp w)))
        = Some e' ->
        Sample.key0 = key_of Sample.opts
        /\ ((Response.statusCode resp < 400
             /\ (Response.statusCode resp <> 304 \/ cached = None)
             /\ CacheEntry.body e' = Buffer_from (Response.text resp))
            \/ (Response.statusCode resp = 304
                /\ exists c, cached = Some c /\ CacheEntry.body e' = CacheEntry.body c))).
Proof.
  intros fresh_body e' w.
  apply (payload_replaced_only_below_400 fresh_body Sample.opts w Sample.key0
           Sample.old_entry e').
  - reflexivity.
  - simpl. discriminate.
Defined.

(** C6 fails as stated, in two ways.  A response with status 302, which
    is not a 2xx status, replaces the payload of the entry, whether or not
    the store keeps overdue entries.  And a 304 replaces payload bytes when
    another call has stored a newer body between the lookup of the call
    and its response: the call stores the entry it found again, over the
    newer one. *)
Lemma payload_replaced_counterexample :
  let redirect := Sample.answers 302 [("location", One "https://example.com/")] "Moved" in
  (forall keep,
     let after := snd (fetchResource redirect Sample.opts (Sample.stale_world keep)) in
     LRUCache.stored Sample.key0 (cache (Sample.stale_world keep)) = Some Sample.old_entry
     /\ option_map CacheEntry.body (LRUCache.stored Sample.key0 (cache after))
        = Some (Buffer_from "Moved"))
  /\ Buffer_from "Moved" <> CacheEntry.body Sample.old_entry
  /\ is_2xx 302 = false
  /\ (let found := LRUCache.stored Sample.key0 (cache (Sample.stale_world false)) in
      let awaiting :=
        snd ((url <- originUrl "data/lending/2025-09-30.json" ;;
              request (Sample.answers 304 [] EmptyString) url (conditional_headers found))
               (looked_up Sample.key0 (Sample.stale_world false))) in
      let other := snd (fetchResource (Sample.answers 200 [("etag", One "etag-2")] "[]")
                          Sample.opts awaiting) in
      let resumed := snd (handleResponse 1 "lending:2025-09-30" "data/lending/2025-09-30.json"
                            Sample.key0 found (Response.mk 304 [] EmptyString) other) in
      found = Some Sample.old_entry
      /\ option_map CacheEntry.body (LRUCache.stored Sample.key0 (cache other))
         = Some (Buffer_from "[]")
      /\ option_map CacheEntry.body (LRUCache.stored Sample.key0 (cache resumed))
         = Some (CacheEntry.body Sample.old_entry)
      /\ CacheEntry.body Sample.old_entry <> Buffer_from "[]").
Proof.
  split; [intros []; split; reflexivity|].
  repeat split; discriminate.
Qed.

(** C7, as the code has it.  A fetch that finds an entry and is answered
    with a status of 400 or more returns the entry as stale, its payload
    untouched, and reports the observed status in the provenance only: the
    store is not written, so the entry, where the store still holds it,
    is the one found, with the status it had. *)
Theorem error_status_is_not_stored
    (origin : Origin) (o : FetchOptions.t) (w : World) (c : CacheEntry.t)
    (resp : Response.t) :
  LRUCache.stored (key_of o) (cache w) = Some c ->
  isFresh (key_of o) w = false ->
  configured w = true ->
  (forall rq, reply (origin rq) = Responded resp) ->
  400 <= Response.statusCode resp ->
  exists w',
    fetchResource origin o w
    = (Return (served (FetchOptions.source o) c (Response.statusCode resp) true), w')
    /\ CacheEntry.body c = FetchResult.buffer
                             (served (FetchOptions.source o) c (Response.statusCode resp) true)
    /\ no_write (cache w) (cache w')
    /\ (forall e, LRUCache.stored (key_of o) (cache w') = Some e -> e = c).
Proof.
  intros Hs Hf Hc Ho Hst.
  rewrite (fetchResource_not_fresh origin o w Hf).
  destruct (fetchFromOrigin_configured origin o (LRUCache.stored (key_of o) (cache w))
              (looked_up (key_of o) w) Hc) as (url & w0 & Hcache & _ & _ & Hrun).
  cbv zeta in Hrun. rewrite Hrun, Ho, handleResponse_cases, Hs. clear Hrun.
  replace (Response.statusCode resp =? 304) with false by (symmetry; apply Z.eqb_neq; lia).
  replace (400 <=? Response.statusCode resp) with true by (symmetry; apply Z.leb_le; lia).
  eexists. split; [reflexivity|]. split; [reflexivity|].
  assert (Hnw : no_write (cache w)
                  (cache (exchanged
                            (Request.mk url "GET" (conditional_headers (Some c)))
                            (origin (Request.mk url "GET" (conditional_headers (Some c))))
                            w0))).
  { simpl. rewrite Hcache. apply get_no_write. }
  split; [exact Hnw|].
  intros e He. apply (no_write_stored _ _ _ _ Hnw) in He. congruence.
Qed.

Lemma error_status_is_not_stored_witness :
  exists w',
    fetchResource (Sample.answers 502 [] "bad gateway") Sample.opts (Sample.stale_world true)
    = (Return (served (FetchOptions.source Sample.opts) Sample.old_entry 502 true), w')
    /\ CacheEntry.body Sample.old_entry
       = FetchResult.buffer (served (FetchOptions.source Sample.opts) Sample.old_entry 502 true)
    /\ no_write (cache (Sample.stale_world true)) (cache w')
    /\ (forall e, LRUCache.stored (key_of Sample.opts) (cache w') = Some e
                  -> e = Sample.old_entry).
Proof.
  apply (error_status_is_not_stored (Sample.answers 502 [] "bad gateway") Sample.opts
           (Sample.stale_world true) Sample.old_entry (Response.mk 502 [] "bad gateway")).
  - reflexivity.
  - reflexivity.
  - reflexivity.
  - intros rq. reflexivity.
  - simpl. lia.
Defined.

(** C7 fails as stated: after a 502 observed with an entry in the store,
    the status kept in the store is still 200 (or the overdue entry has
    been dropped by the lookup), never 502. *)
Lemma error_status_counterexample :
  let bad := Sample.answers 502 [] "bad gateway" in
  CacheEntry.statusCode Sample.old_entry = Some 200
  /\ option_map GithubFetchMetrics.upstreamStatus
       (match fst (fetchResource bad Sample.opts (Sample.stale_world true)) with
        | Return r => Some (FetchResult.metrics r)
        | Throw _ => None
        end) = Some (Some 502)
  /\ option_map CacheEntry.statusCode
       (LRUCache.stored Sample.key0
          (cache (snd (fetchResource bad Sample.opts (Sample.stale_world true)))))
     = Some (Some 200)
  /\ LRUCache.stored Sample.key0
       (cache (snd (fetchResource bad Sample.opts (Sample.stale_world false))))
     = None.
Proof. repeat split. Qed.

(** C8, as the code has it.  A fetch that is not answered from a fresh
    entry fails with the configuration error, before anything is sent to
    the origin, exactly when the owner or the repo is missing (neither
    memoised nor set, non-empty, in the environment); otherwise it sends
    its request, whether or not a branch is configured: the branch in the
    URL of the request is the memoised one, or else the one of the
    environment, or else [main]. *)
Theorem configuration_fails_fast
    (origin : Origin) (o : FetchOptions.t) (w : World) :
  isFresh (key_of o) w = false ->
  if configured w
  then exists base owner repo branch,
         sent (snd (fetchResource origin o w))
         = (sent w ++
            [Request.mk (base ++ "/" ++ owner ++ "/" ++ repo ++ "/" ++ branch ++ "/"
                           ++ FetchOptions.path o)
               "GET" (conditional_headers (LRUCache.stored (key_of o) (cache w)))])%list
         /\ base = strip_trailing_slash (nullish (lookup_env "RAW_BASE" (env w)) DEFAULT_RAW_BASE)
         /\ Some owner = (if truthy (cachedOwner w) then cachedOwner w
                          else lookup_env "GITHUB_OWNER" (env w))
         /\ Some repo = (if truthy (cachedRepo w) then cachedRepo w
                         else lookup_env "GITHUB_REPO" (env w))
         /\ (truthy (cachedBranch w) = true -> Some branch = cachedBranch w)
         /\ (truthy (cachedBranch w) = false ->
             forall b, lookup_env "GITHUB_BRANCH" (env w) = Some b -> branch = b)
         /\ (truthy (cachedBranch w) = false ->
             lookup_env "GITHUB_BRANCH" (env w) = None -> branch = "main")
  else exists name w',
         (name = "GITHUB_OWNER" \/ name = "GITHUB_REPO")
         /\ fetchResource origin o w
            = (Throw (PlainError ("Missing required environment variable: " ++ name)), w')
         /\ sent w' = sent w
         /\ cache w' = cache (looked_up (key_of o) w).
Proof.
  intros Hf. rewrite (fetchResource_not_fresh origin o w Hf).
  destruct (configured w) eqn:Hc.
  - destruct (originUrl_value (FetchOptions.path o) (looked_up (key_of o) w) Hc)
      as (owner & repo & branch & w0 & Hurl & Hsent & HO & HR & HB1 & HB2 & HB3).
    exists (strip_trailing_slash (nullish (lookup_env "RAW_BASE" (env w)) DEFAULT_RAW_BASE)),
      owner, repo, branch.
    split; [|repeat split; assumption].
    unfold fetchFromOrigin, bind. rewrite Hurl. unfold request.
    destruct (reply (origin _)) as [resp|msg].
    + rewrite handleResponse_cases.
      destruct (LRUCache.stored (key_of o) (cache w));
        destruct (Response.statusCode resp =? 304);
        destruct (Response.statusCode resp =? 404);
        destruct (400 <=? Response.statusCode resp);
        simpl; rewrite Hsent; reflexivity.
    + simpl. rewrite Hsent. reflexivity.
  - destruct (fetchFromOrigin_missing origin o (LRUCache.stored (key_of o) (cache w))
                (looked_up (key_of o) w) Hc) as (name & w' & Hname & Hrun & Hcache & Hsent).
    exists name, w'. repeat split; assumption.
Qed.

Lemma configuration_fails_fast_witness :
  (exists name w',
     (name = "GITHUB_OWNER" \/ name = "GITHUB_REPO")
     /\ fetchResource (Sample.answers 200 [] "[]") Sample.opts
          (mkWorld [("GITHUB_OWNER", "test-owner"); ("GITHUB_BRANCH", "main")] 1 1
             None None None (LRUCache.mk 5 false []) 1000 [])
        = (Throw (PlainError ("Missing required environment variable: " ++ name)), w')
     /\ sent w' = []
     /\ cache w' = LRUCache.mk 5 false [])
  /\ (exists base owner repo branch,
        sent (snd (fetchResource (Sample.answers 200 [] "[]") Sample.opts Sample.world0))
        = ([] ++
           [Request.mk (base ++ "/" ++ owner ++ "/" ++ repo ++ "/" ++ branch ++ "/"
                          ++ "data/lending/2025-09-30.json")
              "GET" []])%list
        /\ base = "https://raw.githubusercontent.com"
        /\ Some owner = Some "test-owner"
        /\ Some repo = Some "test-repo"
        /\ (truthy (cachedBranch Sample.world0) = true
            -> Some branch = cachedBranch Sample.world0)
        /\ (truthy (cachedBranch Sample.world0) = false ->
            forall b, lookup_env "GITHUB_BRANCH" (env Sample.world0) = Some b -> branch = b)
        /\ (truthy (cachedBranch Sample.world0) = false ->
            lookup_env "GITHUB_BRANCH" (env Sample.world0) = None -> branch = "main")).
Proof.
  split.
  - apply (configuration_fails_fast (Sample.answers 200 [] "[]") Sample.opts
             (mkWorld [("GITHUB_OWNER", "test-owner"); ("GITHUB_BRANCH", "main")] 1 1
                None None None (LRUCache.mk 5 false []) 1000 [])).
    reflexivity.
  - apply (configuration_fails_fast (Sample.answers 200 [] "[]") Sample.opts Sample.world0).
    reflexivity.
Defined.

(** C8 fails as stated: with the owner and the repo set and no branch in
    the environment, the fetch does not fail; it sends its request for
    the branch [main]. *)
Lemma missing_branch_counterexample :
  let run := fetchResource (Sample.answers 200 [] "[]") Sample.opts Sample.world0 in
  lookup_env "GITHUB_BRANCH" (env Sample.world0) = None
  /\ cachedBranch Sample.world0 = None
  /\ fst run
     = Return (FetchResult.mk (Buffer_from "[]") None None None
                 (GithubFetchMetrics.mk false (Some 200) false "lending:2025-09-30"))
  /\ sent (snd run)
     = [Request.mk
          "https://raw.githubusercontent.com/test-owner/test-repo/main/data/lending/2025-09-30.json"
          "GET" []].
Proof. repeat split. Qed.

(** ** The accessors *)

Example parse_rows :
  JSON.parse Sample.vesu = inl (JArray [JObject [("protocol", JString "Vesu")]]).
Proof. reflexivity. Qed.

Example parse_accepts :
  List.map JSON.parse ["{}"; " [ ] "; "-0.5e+3"; "[null,true,false]"; "[[1],{}]"]
  = [inl (JObject []); inl (JArray []); inl (JNumber "-0.5e+3");
     inl (JArray [JNull; JBool true; JBool false]);
     inl (JArray [JArray [JNumber "1"]; JObject []])].
Proof. reflexivity. Qed.

Example parse_rejects :
  List.map (fun t => match JSON.parse t with inl _ => true | inr _ => false end)
    [EmptyString; "<html>"; "[1,]"; "{,}"; "01"; "1."; "tru"; "[1 2]"; "{} x"; "[" ; "]"]
  = [false; false; false; false; false; false; false; false; false; false; false].
Proof. reflexivity. Qed.

Lemma parseJson_invalid buffer path message w :
  JSON.parse (Buffer_toString buffer) = inr message ->
  parseJson buffer path w
  = (Throw (PlainError ("Failed to parse JSON from " ++ path ++ ": " ++ message)), w).
Proof. intros H. unfold parseJson. rewrite H. reflexivity. Qed.

Lemma parseJson_valid buffer path v w :
  JSON.parse (Buffer_toString buffer) = inl v -> parseJson buffer path w = (Return v, w).
Proof. intros H. unfold parseJson. rewrite H. reflexivity. Qed.

(** C9, as the code has it.  When the bytes a fetch returned, fresh,
    stale or new, are not valid JSON, [getManifest] and [getDailyDataset]
    fail with the parse error, a plain [Error] that is an instance of
    neither [UpstreamNotFoundError] nor [UpstreamUnavailableError]; nothing
    is served in its place.  Bytes that are valid JSON are taken as they
    are: [parseJson] returns their value whatever its shape. *)
Theorem invalid_json_is_a_parse_error
    (origin : Origin) (dataset : Dataset) (date : string) (w w1 : World)
    (r : FetchResult.t) (message : string) :
  JSON.parse (Buffer_toString (FetchResult.buffer r)) = inr message ->
  (fetchResource origin (manifestOptions dataset w) w = (Return r, w1) ->
   getManifest origin dataset w
   = (Throw (PlainError
               ("Failed to parse JSON from " ++ manifestPath dataset ++ ": " ++ message)),
      w1))
  /\ (fetchResource origin (dailyOptions dataset date w) w = (Return r, w1) ->
      getDailyDataset origin dataset date w
      = (Throw (PlainError
                  ("Failed to parse JSON from " ++ dailyPath dataset date ++ ": " ++ message)),
         w1))
  /\ (forall path,
        instanceof_UpstreamNotFoundError
          (PlainError ("Failed to parse JSON from " ++ path ++ ": " ++ message)) = false
        /\ instanceof_UpstreamUnavailableError
             (PlainError ("Failed to parse JSON from " ++ path ++ ": " ++ message)) = false)
  /\ (forall buffer path v w0,
        JSON.parse (Buffer_toString buffer) = inl v ->
        parseJson buffer path w0 = (Return v, w0)).
Proof.
  intros Hbad. repeat split.
  - intros Hrun. unfold getManifest, bind, read. rewrite Hrun.
    rewrite (parseJson_invalid _ _ _ _ Hbad). reflexivity.
  - intros Hrun. unfold getDailyDataset, bind, read. rewrite Hrun.
    rewrite (parseJson_invalid _ _ _ _ Hbad). reflexivity.
  - intros buffer path v w0. apply parseJson_valid.
Qed.

Lemma invalid_json_is_a_parse_error_witness :
  FetchResult.metrics
    (served "lending:2025-09-30" Sample.garbled_entry 502 true)
  = GithubFetchMetrics.mk true (Some 502) true "lending:2025-09-30"
  /\ fst (getDailyDataset (Sample.answers 502 [] "bad gateway") lending "2025-09-30"
            Sample.garbled_world)
     = Throw (PlainError
                "Failed to parse JSON from data/lending/2025-09-30.json: Unexpected token in JSON")
  /\ fst (getManifest (Sample.answers 200 [] "{ latest: ") lending Sample.world0)
     = Throw (PlainError
                "Failed to parse JSON from meta/lending_manifest.json: Unexpected token in JSON").
Proof.
  split; [reflexivity|]. split.
  - pose proof
      (invalid_json_is_a_parse_error (Sample.answers 502 [] "bad gateway") lending
         "2025-09-30" Sample.garbled_world
         (snd (fetchResource (Sample.answers 502 [] "bad gateway") Sample.opts
                 Sample.garbled_world))
         (served "lending:2025-09-30" Sample.garbled_entry 502 true)
         "Unexpected token in JSON" eq_refl) as (_ & Hdaily & _).
    rewrite (Hdaily eq_refl). reflexivity.
  - pose proof
      (invalid_json_is_a_parse_error (Sample.answers 200 [] "{ latest: ") lending
         "2025-09-30" Sample.world0
         (snd (fetchResource (Sample.answers 200 [] "{ latest: ")
                 (manifestOptions lending Sample.world0) Sample.world0))
         (FetchResult.mk (Buffer_from "{ latest: ") None None None
            (GithubFetchMetrics.mk false (Some 200) false "manifest:lending"))
         "Unexpected token in JSON" eq_refl) as (Hmanifest & _).
    rewrite (Hmanifest eq_refl). reflexivity.
Defined.

(** C9 fails as stated: bytes that are valid JSON of another shape are
    accepted.  The text [{}] is returned as a manifest, and as the rows of
    a day, without any error. *)
Lemma shape_mismatch_counterexample :
  let empty_object := Sample.answers 200 [] "{}" in
  JSON.parse "{}" = inl (JObject [])
  /\ is_Manifest (JObject []) = false
  /\ is_row_array (JObject []) = false
  /\ fst (getManifest empty_object lending Sample.world0)
     = Return (ManifestResult.mk (JObject []) None None
                 (GithubFetchMetrics.mk false (Some 200) false "manifest:lending"))
  /\ fst (getDailyDataset empty_object lending "2025-09-30" Sample.world0)
     = Return (DailyResult.mk (JObject []) None None
                 (GithubFetchMetrics.mk false (Some 200) false "lending:2025-09-30")).
Proof. repeat split. Qed.

(** ** The 304 that finds no entry *)

(** C10, as the code has it.  When the origin answers 304 and the lookup
    at the start of the call found no entry for the key, [fetchResource]
    takes the last branch: it stores the body of the 304 response as a new
    entry with the time to live of the class and returns it with
    provenance cacheHit = false, servedStale = false, upstreamStatus =
    304. *)
Theorem not_modified_without_entry_is_stored
    (origin : Origin) (o : FetchOptions.t) (w : World) (resp : Response.t) :
  LRUCache.stored (key_of o) (cache w) = None ->
  configured w = true ->
  (forall rq, reply (origin rq) = Responded resp) ->
  Response.statusCode resp = 304 ->
  exists r w',
    fetchResource origin o w = (Return r, w')
    /\ FetchResult.buffer r = Buffer_from (Response.text resp)
    /\ FetchResult.metrics r
       = GithubFetchMetrics.mk false (Some 304) false (FetchOptions.source o)
    /\ LRUCache.find_slot (key_of o) (cache w')
       = Some (LRUCache.mkSlot (key_of o) (newEntry resp) (now w')
                 (FetchOptions.ttlSeconds o * 1000))
    /\ CacheEntry.body (newEntry resp) = Buffer_from (Response.text resp)
    /\ CacheEntry.statusCode (newEntry resp) = Some 304.
Proof.
  intros Hs Hc Ho Hst.
  rewrite (fetchResource_not_fresh origin o w (stored_none_not_fresh _ _ Hs)).
  destruct (fetchFromOrigin_configured origin o (LRUCache.stored (key_of o) (cache w))
              (looked_up (key_of o) w) Hc) as (url & w0 & _ & _ & _ & Hrun).
  cbv zeta in Hrun. rewrite Hrun, Ho, handleResponse_cases, Hs, Hst. clear Hrun.
  simpl (304 =? 404). simpl (400 <=? 304).
  eexists _, _. split; [reflexivity|]. simpl.
  repeat split.
  - apply set_found.
  - unfold newEntry. simpl. rewrite Hst. reflexivity.
Qed.

Lemma not_modified_without_entry_is_stored_witness :
  exists r w',
    fetchResource (Sample.answers 304 [] EmptyString) Sample.opts Sample.world0
    = (Return r, w')
    /\ FetchResult.buffer r = Buffer_from EmptyString
    /\ FetchResult.metrics r
       = GithubFetchMetrics.mk false (Some 304) false (FetchOptions.source Sample.opts)
    /\ LRUCache.find_slot (key_of Sample.opts) (cache w')
       = Some (LRUCache.mkSlot (key_of Sample.opts)
                 (newEntry (Response.mk 304 [] EmptyString)) (now w')
                 (FetchOptions.ttlSeconds Sample.opts * 1000))
    /\ CacheEntry.body (newEntry (Response.mk 304 [] EmptyString)) = Buffer_from EmptyString
    /\ CacheEntry.statusCode (newEntry (Response.mk 304 [] EmptyString)) = Some 304.
Proof.
  apply (not_modified_without_entry_is_stored (Sample.answers 304 [] EmptyString)
           Sample.opts Sample.world0 (Response.mk 304 [] EmptyString)).
  - reflexivity.
  - reflexivity.
  - intros rq. reflexivity.
  - reflexivity.
Defined.

(** C10 fails as stated where the entry leaves the store between the
    lookup and the response: the call still holds the entry it found, so
    the 304 is a revalidation.  First the lookup itself drops the overdue
    entry; then the store is cleared while the call awaits. *)
Lemma not_modified_counterexample :
  let unchanged := Response.mk 304 [("etag", One "etag-1")] EmptyString in
  let run := fetchResource (Sample.answers 304 [("etag", One "etag-1")] EmptyString)
               Sample.opts (Sample.stale_world false) in
  let cleared := snd (invalidateCache (Sample.stale_world true)) in
  (LRUCache.stored Sample.key0 (cache (looked_up Sample.key0 (Sample.stale_world false)))
   = None
   /\ fst run = Return (served "lending:2025-09-30" Sample.old_entry 304 false)
   /\ LRUCache.stored Sample.key0 (cache (snd run))
      = Some (CacheEntry.with_statusCode Sample.old_entry 304))
  /\ (LRUCache.stored Sample.key0 (cache cleared) = None
      /\ fst (handleResponse 1 "lending:2025-09-30" "data/lending/2025-09-30.json"
                Sample.key0 (Some Sample.old_entry) unchanged cleared)
         = Return (served "lending:2025-09-30" Sample.old_entry 304 false)
      /\ GithubFetchMetrics.cacheHit
           (FetchResult.metrics (served "lending:2025-09-30" Sample.old_entry 304 false))
         = true).
Proof. repeat split. Qed.

(** * Further properties of the fetch layer *)

(** ** The results of a call *)

(** Every result of [fetchResource] is of one of four kinds: the fresh
    entry; the entry revalidated by a 304; the entry served stale on a
    status of 400 or more; the body of a response below 400, newly
    stored.  Only the first kind sends no request. *)
Lemma fetchResource_returns (origin : Origin) (o : FetchOptions.t) (w w' : World)
    (r : FetchResult.t) :
  fetchResource origin o w = (Return r, w') ->
  let k := key_of o in
  let source := FetchOptions.source o in
  let ttl_ms := FetchOptions.ttlSeconds o * 1000 in
  (exists c,
      isFresh k w = true
      /\ LRUCache.stored k (cache w) = Some c
      /\ r = served source c (nullish (CacheEntry.statusCode c) 200) false
      /\ w' = looked_up k w)
  \/ (exists url resp,
        let rq := Request.mk url "GET" (conditional_headers (LRUCache.stored k (cache w))) in
        isFresh k w = false
        /\ configured w = true
        /\ reply (origin rq) = Responded resp
        /\ sent w' = (sent w ++ [rq])%list
        /\ now w' = now w + took (origin rq)
        /\ ((exists c,
               LRUCache.stored k (cache w) = Some c
               /\ Response.statusCode resp = 304
               /\ r = served source c 304 false
               /\ cache w' = LRUCache.set k (CacheEntry.with_statusCode c 304) ttl_ms
                               (now w') (cache (looked_up k w)))
            \/ (exists c,
                  LRUCache.stored k (cache w) = Some c
                  /\ 400 <= Response.statusCode resp
                  /\ r = served source c (Response.statusCode resp) true
                  /\ cache w' = cache (looked_up k w))
            \/ (Response.statusCode resp < 400
                /\ (Response.statusCode resp <> 304 \/ LRUCache.stored k (cache w) = None)
                /\ r = FetchResult.mk (CacheEntry.body (newEntry resp))
                         (CacheEntry.etag (newEntry resp))
                         (CacheEntry.lastModified (newEntry resp))
                         (CacheEntry.contentType (newEntry resp))
                         (GithubFetchMetrics.mk false (Some (Response.statusCode resp))
                            false source)
                /\ cache w' = LRUCache.set k (newEntry resp) ttl_ms (now w')
                                (cache (looked_up k w))))).
Proof.
  intros Hrun. cbv zeta.
  destruct (isFresh (key_of o) w) eqn:Hf.
  - destruct (fetchResource_fresh origin o w Hf) as (s & F & Hfresh).
    rewrite Hfresh in Hrun. injection Hrun as <- <-.
    left. exists (LRUCache.value s). repeat split.
    unfold LRUCache.stored. rewrite F. reflexivity.
  - right. rewrite (fetchResource_not_fresh origin o w Hf) in Hrun.
    destruct (configured w) eqn:Hc.
    2:{ destruct (fetchFromOrigin_missing origin o (LRUCache.stored (key_of o) (cache w))
                    (looked_up (key_of o) w) Hc) as (name & w1 & _ & Hthrow & _).
        rewrite Hthrow in Hrun. discriminate. }
    destruct (fetchFromOrigin_configured origin o (LRUCache.stored (key_of o) (cache w))
                (looked_up (key_of o) w) Hc) as (url & w0 & Hcache & Hnow & Hsent & Heq).
    cbv zeta in Heq. rewrite Heq in Hrun. clear Heq.
    exists url.
    set (rq := Request.mk url "GET"
                 (conditional_headers (LRUCache.stored (key_of o) (cache w)))) in *.
    destruct (reply (origin rq)) as [resp|msg] eqn:Hreply; [|discriminate].
    exists resp. rewrite handleResponse_cases in Hrun.
    assert (Hs : sent (exchanged rq (origin rq) w0) = (sent w ++ [rq])%list).
    { simpl. rewrite Hsent. reflexivity. }
    assert (Hn : now (exchanged rq (origin rq) w0) = now w + took (origin rq)).
    { simpl. rewrite Hnow. reflexivity. }
    destruct (LRUCache.stored (key_of o) (cache w)) as [c|] eqn:Hst.
    + destruct (Response.statusCode resp =? 304) eqn:E304.
      * injection Hrun as <- <-. apply Z.eqb_eq in E304.
        repeat split; try assumption.
        left. exists c. repeat split; try assumption.
        simpl. rewrite Hcache. reflexivity.
      * destruct (400 <=? Response.statusCode resp) eqn:E400.
        -- injection Hrun as <- <-. apply Z.leb_le in E400.
           repeat split; try assumption.
           right; left. exists c. repeat split; assumption.
        -- injection Hrun as <- <-. apply Z.leb_gt in E400. apply Z.eqb_neq in E304.
           repeat split; try assumption.
           right; right. repeat split; try assumption; [left; assumption|].
           simpl. rewrite Hcache. reflexivity.
    + destruct (Response.statusCode resp =? 404); [discriminate|].
      destruct (400 <=? Response.statusCode resp) eqn:E400; [discriminate|].
      injection Hrun as <- <-. apply Z.leb_gt in E400.
      repeat split; try assumption.
      right; right. repeat split; try assumption; [right; reflexivity|].
      simpl. rewrite Hcache. reflexivity.
Qed.

(** X1.  A response with a status below 400 other than 304, to a call that
    reaches the origin, is returned and stored whether or not an entry was
    found: the payload is the body of the response; the entity tag, the
    last-modified stamp and the content type are the first values of the
    three headers; the provenance is cacheHit = false, servedStale =
    false with the status; the entry's clock starts anew, so that with a
    positive time to live the entry is fresh. *)
Theorem response_below_400_is_stored
    (origin : Origin) (o : FetchOptions.t) (w : World) (resp : Response.t) :
  isFresh (key_of o) w = false ->
  configured w = true ->
  (forall rq, reply (origin rq) = Responded resp) ->
  Response.statusCode resp < 400 ->
  Response.statusCode resp <> 304 ->
  exists r w',
    fetchResource origin o w = (Return r, w')
    /\ FetchResult.buffer r = Buffer_from (Response.text resp)
    /\ FetchResult.etag r = firstHeader (lookup_header "etag" (Response.headers resp))
    /\ FetchResult.lastModified r
       = firstHeader (lookup_header "last-modified" (Response.headers resp))
    /\ FetchResult.contentType r
       = firstHeader (lookup_header "content-type" (Response.headers resp))
    /\ FetchResult.metrics r
       = GithubFetchMetrics.mk false (Some (Response.statusCode resp)) false
           (FetchOptions.source o)
    /\ LRUCache.find_slot (key_of o) (cache w')
       = Some (LRUCache.mkSlot (key_of o) (newEntry resp) (now w')
                 (FetchOptions.ttlSeconds o * 1000))
    /\ (0 < FetchOptions.ttlSeconds o -> isFresh (key_of o) w' = true).
Proof.
  intros Hf Hc Ho Hlt Hne.
  rewrite (fetchResource_not_fresh origin o w Hf).
  destruct (fetchFromOrigin_configured origin o (LRUCache.stored (key_of o) (cache w))
              (looked_up (key_of o) w) Hc) as (url & w0 & _ & _ & _ & Hrun).
  cbv zeta in Hrun. rewrite Hrun, Ho, handleResponse_cases. clear Hrun.
  replace (Response.statusCode resp =? 304) with false by (symmetry; apply Z.eqb_neq; lia).
  replace (Response.statusCode resp =? 404) with false by (symmetry; apply Z.eqb_neq; lia).
  replace (400 <=? Response.statusCode resp) with false by (symmetry; apply Z.leb_gt; lia).
  assert (Hboth :
    forall W : World,
    exists r w',
      (Return (FetchResult.mk (Buffer_from (Response.text resp))
                 (CacheEntry.etag (newEntry resp)) (CacheEntry.lastModified (newEntry resp))
                 (CacheEntry.contentType (newEntry resp))
                 (GithubFetchMetrics.mk false (Some (Response.statusCode resp)) false
                    (FetchOptions.source o))),
       with_cache W (LRUCache.set (key_of o) (newEntry resp)
                       (FetchOptions.ttlSeconds o * 1000) (now W) (cache W)))
      = (Return r, w')
      /\ FetchResult.buffer r = Buffer_from (Response.text resp)
      /\ FetchResult.etag r = firstHeader (lookup_header "etag" (Response.headers resp))
      /\ FetchResult.lastModified r
         = firstHeader (lookup_header "last-modified" (Response.headers resp))
      /\ FetchResult.contentType r
         = firstHeader (lookup_header "content-type" (Response.headers resp))
      /\ FetchResult.metrics r
         = GithubFetchMetrics.mk false (Some (Response.statusCode resp)) false
             (FetchOptions.source o)
      /\ LRUCache.find_slot (key_of o) (cache w')
         = Some (LRUCache.mkSlot (key_of o) (newEntry resp) (now w')
                   (FetchOptions.ttlSeconds o * 1000))
      /\ (0 < FetchOptions.ttlSeconds o -> isFresh (key_of o) w' = true)).
  { intros W. eexists _, _. split; [reflexivity|].
    cbn [FetchResult.buffer FetchResult.etag FetchResult.lastModified
           FetchResult.contentType FetchResult.metrics cache now with_cache].
    repeat split.
    - apply set_found.
    - intros Hpos. unfold isFresh. cbn [cache now with_cache].
      apply fresh_after_set. lia. }
  destruct (LRUCache.stored (key_of o) (cache w)); apply Hboth.
Qed.

Lemma response_below_400_is_stored_witness :
  exists r w',
    fetchResource
      (Sample.answers 200 [("etag", Many ["etag-2"; "etag-3"])] "[]") Sample.opts
      (Sample.stale_world false)
    = (Return r, w')
    /\ FetchResult.buffer r = Buffer_from "[]"
    /\ FetchResult.etag r = Some "etag-2"
    /\ FetchResult.lastModified r = None
    /\ FetchResult.contentType r = None
    /\ FetchResult.metrics r
       = GithubFetchMetrics.mk false (Some 200) false (FetchOptions.source Sample.opts)
    /\ LRUCache.find_slot (key_of Sample.opts) (cache w')
       = Some (LRUCache.mkSlot (key_of Sample.opts)
                 (newEntry (Response.mk 200 [("etag", Many ["etag-2"; "etag-3"])] "[]"))
                 (now w') (FetchOptions.ttlSeconds Sample.opts * 1000))
    /\ (0 < FetchOptions.ttlSeconds Sample.opts -> isFresh (key_of Sample.opts) w' = true).
Proof.
  apply (response_below_400_is_stored
           (Sample.answers 200 [("etag", Many ["etag-2"; "etag-3"])] "[]") Sample.opts
           (Sample.stale_world false)
           (Response.mk 200 [("etag", Many ["etag-2"; "etag-3"])] "[]")).
  - reflexivity.
  - reflexivity.
  - intros rq. reflexivity.
  - simpl. lia.
  - simpl. discriminate.
Defined.

(** X2.  With no entry in the store, a status of 400 or more other than
    404 makes [fetchResource] fail with [UpstreamUnavailableError]
    carrying that status; one request has been sent and the store is as it
    was. *)
Theorem unavailable_without_entry
    (origin : Origin) (o : FetchOptions.t) (w : World) (resp : Response.t) :
  LRUCache.stored (key_of o) (cache w) = None ->
  configured w = true ->
  (forall rq, reply (origin rq) = Responded resp) ->
  400 <= Response.statusCode resp ->
  Response.statusCode resp <> 404 ->
  exists rq w',
    fetchResource origin o w
    = (Throw (UpstreamUnavailableError
                ("Upstream request failed for " ++ FetchOptions.path o)
                (Response.statusCode resp)), w')
    /\ sent w' = (sent w ++ [rq])%list
    /\ Request.headers rq = []
    /\ cache w' = cache w.
Proof.
  intros Hs Hc Ho Hge Hne.
  rewrite (fetchResource_not_fresh origin o w (stored_none_not_fresh _ _ Hs)).
  destruct (fetchFromOrigin_configured origin o (LRUCache.stored (key_of o) (cache w))
              (looked_up (key_of o) w) Hc) as (url & w0 & Hcache & _ & Hsent & Hrun).
  cbv zeta in Hrun. rewrite Hrun, Ho, handleResponse_cases, Hs. clear Hrun.
  replace (Response.statusCode resp =? 404) with false by (symmetry; apply Z.eqb_neq; lia).
  replace (400 <=? Response.statusCode resp) with true by (symmetry; apply Z.leb_le; lia).
  rewrite (looked_up_none _ _ Hs) in Hcache, Hsent. simpl in Hcache, Hsent.
  eexists _, _. split; [reflexivity|]. simpl. rewrite Hsent, Hcache. repeat split.
Qed.

Lemma unavailable_without_entry_witness :
  exists rq w',
    fetchResource (Sample.answers 503 [] "unavailable") Sample.opts Sample.world0
    = (Throw (UpstreamUnavailableError
                ("Upstream request failed for " ++ FetchOptions.path Sample.opts) 503), w')
    /\ sent w' = (sent Sample.world0 ++ [rq])%list
    /\ Request.headers rq = []
    /\ cache w' = cache Sample.world0.
Proof.
  apply (unavailable_without_entry (Sample.answers 503 [] "unavailable") Sample.opts
           Sample.world0 (Response.mk 503 [] "unavailable")).
  - reflexivity.
  - reflexivity.
  - intros rq. reflexivity.
  - simpl. lia.
  - simpl. discriminate.
Defined.

(** X3.  The provenance of every result is coherent.  It always names an
    upstream status and the source asked for; servedStale implies
    cacheHit; with cacheHit the payload, entity tag, last-modified stamp
    and content type are those of the entry the lookup found; without
    cacheHit exactly one request was sent and the store now holds, under
    the key, an entry with the payload returned. *)
Theorem provenance_is_coherent
    (origin : Origin) (o : FetchOptions.t) (w w' : World) (r : FetchResult.t) :
  fetchResource origin o w = (Return r, w') ->
  let m := FetchResult.metrics r in
  GithubFetchMetrics.upstreamStatus m <> None
  /\ GithubFetchMetrics.source m = FetchOptions.source o
  /\ (GithubFetchMetrics.servedStale m = true -> GithubFetchMetrics.cacheHit m = true)
  /\ (GithubFetchMetrics.cacheHit m = true ->
      exists c, LRUCache.stored (key_of o) (cache w) = Some c
                /\ FetchResult.buffer r = CacheEntry.body c
                /\ FetchResult.etag r = CacheEntry.etag c
                /\ FetchResult.lastModified r = CacheEntry.lastModified c
                /\ FetchResult.contentType r = CacheEntry.contentType c)
  /\ (GithubFetchMetrics.cacheHit m = false ->
      GithubFetchMetrics.servedStale m = false
      /\ (exists rq, sent w' = (sent w ++ [rq])%list)
      /\ exists c, LRUCache.stored (key_of o) (cache w') = Some c
                   /\ CacheEntry.body c = FetchResult.buffer r
                   /\ CacheEntry.etag c = FetchResult.etag r).
Proof.
  intros Hrun. cbv zeta.
  destruct (fetchResource_returns origin o w w' r Hrun)
    as [(c & _ & Hst & -> & _)
       | (url & resp & _ & _ & _ & Hsent & _ &
          [(c & Hst & _ & -> & _) | [(c & Hst & _ & -> & _) | (_ & _ & -> & Hcache)]])];
    cbn [FetchResult.metrics FetchResult.buffer FetchResult.etag FetchResult.lastModified
           FetchResult.contentType served GithubFetchMetrics.upstreamStatus
           GithubFetchMetrics.source GithubFetchMetrics.servedStale
           GithubFetchMetrics.cacheHit].
  1-3: (repeat split; try discriminate; intros _; exists c; repeat split; exact Hst).
  repeat split; try discriminate.
  - eexists. exact Hsent.
  - exists (newEntry resp). rewrite Hcache, stored_set_same. repeat split.
Qed.

Lemma provenance_is_coherent_witness :
  let run := fetchResource (Sample.answers 502 [] "bad gateway") Sample.opts
               (Sample.stale_world true) in
  GithubFetchMetrics.upstreamStatus
    (FetchResult.metrics (served "lending:2025-09-30" Sample.old_entry 502 true)) <> None
  /\ GithubFetchMetrics.source
       (FetchResult.metrics (served "lending:2025-09-30" Sample.old_entry 502 true))
     = "lending:2025-09-30"
  /\ fst run = Return (served "lending:2025-09-30" Sample.old_entry 502 true).
Proof.
  intros run.
  destruct (provenance_is_coherent (Sample.answers 502 [] "bad gateway") Sample.opts
              (Sample.stale_world true) (snd run)
              (served "lending:2025-09-30" Sample.old_entry 502 true) eq_refl)
    as (Hstatus & Hsource & _).
  split; [exact Hstatus|]. split; [exact Hsource|reflexivity].
Defined.

(** X4.  A call never sends more than one request.  It sends none when it
    is answered by a fresh entry or when the owner or the repo is not
    known; otherwise it sends exactly one, a GET that carries
    [If-None-Match] with the entity tag of the entry the lookup found when
    that tag is not empty, and no header at all otherwise: on a first
    fetch, and when the entry found has no entity tag or an empty one. *)
Theorem one_request_at_most (origin : Origin) (o : FetchOptions.t) (w : World) :
  let w' := snd (fetchResource origin o w) in
  let found := LRUCache.stored (key_of o) (cache w) in
  ((isFresh (key_of o) w = true \/ configured w = false) /\ sent w' = sent w)
  \/ (isFresh (key_of o) w = false /\ configured w = true
      /\ exists url headers,
           sent w' = (sent w ++ [Request.mk url "GET" headers])%list
           /\ (found = None -> headers = [])
           /\ (forall c, found = Some c -> CacheEntry.etag c = None -> headers = [])
           /\ (forall c, found = Some c -> CacheEntry.etag c = Some EmptyString ->
                         headers = [])
           /\ (forall c E, found = Some c -> CacheEntry.etag c = Some E ->
                           E <> EmptyString ->
                           headers = [("If-None-Match", E)])).
Proof.
  cbv zeta.
  destruct (isFresh (key_of o) w) eqn:Hf.
  - left. split; [left; reflexivity|].
    destruct (fetchResource_fresh origin o w Hf) as (s & _ & Hrun).
    rewrite Hrun. reflexivity.
  - rewrite (fetchResource_not_fresh origin o w Hf).
    destruct (configured w) eqn:Hc.
    + right. repeat split.
      destruct (fetchFromOrigin_configured origin o (LRUCache.stored (key_of o) (cache w))
                  (looked_up (key_of o) w) Hc) as (url & w0 & _ & _ & Hsent & Hrun).
      cbv zeta in Hrun. rewrite Hrun. clear Hrun.
      exists url, (conditional_headers (LRUCache.stored (key_of o) (cache w))). split.
      * destruct (reply (origin _)) as [resp|msg].
        -- rewrite handleResponse_cases.
           destruct (LRUCache.stored (key_of o) (cache w));
             destruct (Response.statusCode resp =? 304);
             destruct (Response.statusCode resp =? 404);
             destruct (400 <=? Response.statusCode resp);
             simpl; rewrite Hsent; reflexivity.
        -- simpl. rewrite Hsent. reflexivity.
      * repeat split.
        -- intros ->. reflexivity.
        -- intros c -> He. unfold conditional_headers. rewrite He. reflexivity.
        -- intros c -> He. unfold conditional_headers. rewrite He. reflexivity.
        -- intros c E -> He Hne. apply conditional_headers_etag; assumption.
    + left. split; [right; reflexivity|].
      destruct (fetchFromOrigin_missing origin o (LRUCache.stored (key_of o) (cache w))
                  (looked_up (key_of o) w) Hc) as (name & w1 & _ & Hrun & _ & Hsent).
      rewrite Hrun. exact Hsent.
Qed.

(** After a result that was not served stale, the store holds under the
    key an entry with the payload and the entity tag returned, whose
    status is the one a fresh hit will report. *)
Lemma entry_after_result (origin : Origin) (o : FetchOptions.t) (w w1 : World)
    (r1 : FetchResult.t) :
  fetchResource origin o w = (Return r1, w1) ->
  GithubFetchMetrics.servedStale (FetchResult.metrics r1) = false ->
  exists c,
    LRUCache.stored (key_of o) (cache w1) = Some c
    /\ CacheEntry.body c = FetchResult.buffer r1
    /\ CacheEntry.etag c = FetchResult.etag r1
    /\ Some (nullish (CacheEntry.statusCode c) 200)
       = GithubFetchMetrics.upstreamStatus (FetchResult.metrics r1).
Proof.
  intros Hrun Hstale.
  destruct (fetchResource_returns origin o w w1 r1 Hrun)
    as [(c & Hf & Hst & -> & ->)
       | (url & resp & _ & _ & _ & _ & _ &
          [(c & Hst & _ & -> & Hcache) | [(c & Hst & _ & -> & _) | (_ & _ & -> & Hcache)]])].
  - exists c. split; [|repeat split].
    unfold isFresh in Hf.
    apply stored_find in Hst as (s & F & <-).
    unfold LRUCache.stored, looked_up. cbn [cache with_cache].
    rewrite (fresh_get_keeps _ _ _ s F Hf). reflexivity.
  - exists (CacheEntry.with_statusCode c 304). rewrite Hcache, stored_set_same.
    repeat split.
  - discriminate Hstale.
  - exists (newEntry resp). rewrite Hcache, stored_set_same. repeat split.
Qed.

(** X5.  The entity tag a call returns, unless it served a stale entry,
    is the validator of the next call that goes to the origin: with the
    store left as it was, that call sends [If-None-Match] with this tag. *)
Theorem returned_etag_is_sent_back
    (origin1 origin2 : Origin) (o : FetchOptions.t) (w w1 w2 : World)
    (r1 : FetchResult.t) (E : string) :
  fetchResource origin1 o w = (Return r1, w1) ->
  GithubFetchMetrics.servedStale (FetchResult.metrics r1) = false ->
  FetchResult.etag r1 = Some E ->
  E <> EmptyString ->
  cache w2 = cache w1 ->
  isFresh (key_of o) w2 = false ->
  configured w2 = true ->
  exists url,
    sent (snd (fetchResource origin2 o w2))
    = (sent w2 ++ [Request.mk url "GET" [("If-None-Match", E)]])%list.
Proof.
  intros Hrun Hstale He Hne Hsame Hf Hc.
  destruct (entry_after_result origin1 o w w1 r1 Hrun Hstale) as (c & Hst & _ & Hetag & _).
  rewrite (fetchResource_not_fresh origin2 o w2 Hf).
  destruct (fetchFromOrigin_configured origin2 o (LRUCache.stored (key_of o) (cache w2))
              (looked_up (key_of o) w2) Hc) as (url & w0 & _ & _ & Hsent & Heq).
  cbv zeta in Heq. rewrite Heq. clear Heq.
  rewrite Hsame, Hst.
  rewrite (conditional_headers_etag c E) by congruence.
  exists url.
  destruct (reply (origin2 _)) as [resp|msg].
  - rewrite handleResponse_cases.
    destruct (Response.statusCode resp =? 304);
      destruct (400 <=? Response.statusCode resp);
      simpl; rewrite Hsent; reflexivity.
  - simpl. rewrite Hsent. reflexivity.
Qed.

Lemma returned_etag_is_sent_back_witness :
  let first := fetchResource (Sample.answers 200 [("etag", One "etag-1")] Sample.vesu)
                 Sample.opts Sample.world0 in
  exists url,
    sent (snd (fetchResource Sample.unreachable Sample.opts (later 5000 (snd first))))
    = (sent (later 5000 (snd first))
       ++ [Request.mk url "GET" [("If-None-Match", "etag-1")]])%list.
Proof.
  intros first.
  apply (returned_etag_is_sent_back
           (Sample.answers 200 [("etag", One "etag-1")] Sample.vesu) Sample.unreachable
           Sample.opts Sample.world0 (snd first) (later 5000 (snd first))
           (FetchResult.mk (Buffer_from Sample.vesu) (Some "etag-1") None None
              (GithubFetchMetrics.mk false (Some 200) false (FetchOptions.source Sample.opts)))
           "etag-1").
  - reflexivity.
  - reflexivity.
  - reflexivity.
  - discriminate.
  - reflexivity.
  - reflexivity.
  - reflexivity.
Defined.

(** X6.  A fresh hit repeats the upstream status of the result that
    came before it: 200 or another status below 400 after a stored
    response, 304 after a revalidation, and again the same after a fresh
    hit. *)
Theorem fresh_hit_repeats_status
    (origin1 origin2 : Origin) (o : FetchOptions.t) (w w1 w2 : World)
    (r1 : FetchResult.t) :
  fetchResource origin1 o w = (Return r1, w1) ->
  GithubFetchMetrics.servedStale (FetchResult.metrics r1) = false ->
  cache w2 = cache w1 ->
  isFresh (key_of o) w2 = true ->
  exists r2 w2',
    fetchResource origin2 o w2 = (Return r2, w2')
    /\ GithubFetchMetrics.cacheHit (FetchResult.metrics r2) = true
    /\ GithubFetchMetrics.upstreamStatus (FetchResult.metrics r2)
       = GithubFetchMetrics.upstreamStatus (FetchResult.metrics r1).
Proof.
  intros Hrun Hstale Hsame Hf.
  destruct (entry_after_result origin1 o w w1 r1 Hrun Hstale) as (c & Hst & _ & _ & Hstatus).
  destruct (fetchResource_fresh origin2 o w2 Hf) as (s & F & Hhit).
  rewrite Hhit. eexists _, _. split; [reflexivity|]. split; [reflexivity|].
  rewrite <- Hsame in Hst. unfold LRUCache.stored in Hst. rewrite F in Hst.
  injection Hst as ->. exact Hstatus.
Qed.

Lemma fresh_hit_repeats_status_witness :
  let first := fetchResource (Sample.answers 304 [] EmptyString) Sample.opts
                 (Sample.stale_world false) in
  exists r2 w2',
    fetchResource Sample.unreachable Sample.opts (later 10 (snd first)) = (Return r2, w2')
    /\ GithubFetchMetrics.cacheHit (FetchResult.metrics r2) = true
    /\ GithubFetchMetrics.upstreamStatus (FetchResult.metrics r2) = Some 304.
Proof.
  intros first.
  apply (fresh_hit_repeats_status (Sample.answers 304 [] EmptyString) Sample.unreachable
           Sample.opts (Sample.stale_world false) (snd first) (later 10 (snd first))
           (served "lending:2025-09-30" Sample.old_entry 304 false)).
  - reflexivity.
  - reflexivity.
  - reflexivity.
  - reflexivity.
Defined.

(** ** Clearing the store, and what the lookup drops *)

(** X7.  After [invalidateCache()] nothing is left to fall back on:
    whatever the store held, a call whose request is answered with a
    status of 400 or more fails, with [UpstreamNotFoundError] on 404 and
    with [UpstreamUnavailableError] carrying the status otherwise. *)
Theorem no_fallback_after_invalidateCache
    (origin : Origin) (o : FetchOptions.t) (w : World) (resp : Response.t) :
  configured w = true ->
  (forall rq, reply (origin rq) = Responded resp) ->
  400 <= Response.statusCode resp ->
  exists w',
    fetchResource origin o (snd (invalidateCache w))
    = (Throw (if Response.statusCode resp =? 404
              then UpstreamNotFoundError
                     ("Resource not found upstream: " ++ FetchOptions.path o)
              else UpstreamUnavailableError
                     ("Upstream request failed for " ++ FetchOptions.path o)
                     (Response.statusCode resp)), w')
    /\ LRUCache.slots (cache w') = [].
Proof.
  intros Hc Ho Hge.
  set (w0 := snd (invalidateCache w)).
  assert (Hs : LRUCache.stored (key_of o) (cache w0) = None) by reflexivity.
  rewrite (fetchResource_not_fresh origin o w0 (stored_none_not_fresh _ _ Hs)).
  destruct (fetchFromOrigin_configured origin o (LRUCache.stored (key_of o) (cache w0))
              (looked_up (key_of o) w0) Hc) as (url & w1 & Hcache & _ & _ & Hrun).
  cbv zeta in Hrun. rewrite Hrun, Ho, handleResponse_cases, Hs. clear Hrun.
  replace (400 <=? Response.statusCode resp) with true by (symmetry; apply Z.leb_le; lia).
  destruct (Response.statusCode resp =? 404);
    (eexists; split; [reflexivity|]; simpl; rewrite Hcache; reflexivity).
Qed.

Lemma no_fallback_after_invalidateCache_witness :
  LRUCache.stored Sample.key0 (cache (Sample.stale_world true)) = Some Sample.old_entry
  /\ exists w',
       fetchResource (Sample.answers 502 [] "bad gateway") Sample.opts
         (snd (invalidateCache (Sample.stale_world true)))
       = (Throw (UpstreamUnavailableError
                   ("Upstream request failed for " ++ FetchOptions.path Sample.opts) 502), w')
       /\ LRUCache.slots (cache w') = [].
Proof.
  split; [reflexivity|].
  apply (no_fallback_after_invalidateCache (Sample.answers 502 [] "bad gateway") Sample.opts
           (Sample.stale_world true) (Response.mk 502 [] "bad gateway")).
  - reflexivity.
  - intros rq. reflexivity.
  - simpl. lia.
Defined.

(** X8.  With a store that drops an overdue entry when it is looked up
    (the default, [noDeleteOnStaleGet] not set), an entry is served stale
    once: the call that serves it leaves no entry under the key, so the
    next call whose request is again answered with a status of 400 or more
    fails, with one of the module's two errors. *)
Theorem stale_entry_is_served_once
    (origin1 origin2 : Origin) (o : FetchOptions.t) (w : World) (s : LRUCache.Slot)
    (resp1 resp2 : Response.t) :
  LRUCache.noDeleteOnStaleGet (cache w) = false ->
  LRUCache.find_slot (key_of o) (cache w) = Some s ->
  LRUCache.isStale (now w) s = true ->
  configured w = true ->
  (forall rq, reply (origin1 rq) = Responded resp1) ->
  400 <= Response.statusCode resp1 ->
  (forall rq, reply (origin2 rq) = Responded resp2) ->
  400 <= Response.statusCode resp2 ->
  exists w1,
    fetchResource origin1 o w
    = (Return (served (FetchOptions.source o) (LRUCache.value s)
                 (Response.statusCode resp1) true), w1)
    /\ LRUCache.stored (key_of o) (cache w1) = None
    /\ forall w2,
         cache w2 = cache w1 -> configured w2 = true ->
         exists e,
           fst (fetchResource origin2 o w2) = Throw e
           /\ (instanceof_UpstreamNotFoundError e || instanceof_UpstreamUnavailableError e
               = true).
Proof.
  intros Hkeep F Hstale Hc Ho1 Hge1 Ho2 Hge2.
  assert (Hf : isFresh (key_of o) w = false).
  { unfold isFresh. exact (stale_not_fresh _ _ _ s F Hstale). }
  assert (Hst : LRUCache.stored (key_of o) (cache w) = Some (LRUCache.value s)).
  { unfold LRUCache.stored. rewrite F. reflexivity. }
  assert (Hdropped : LRUCache.stored (key_of o) (cache (looked_up (key_of o) w)) = None).
  { unfold looked_up, LRUCache.get. rewrite F, Hstale, Hkeep. simpl.
    unfold LRUCache.stored, LRUCache.find_slot. simpl.
    rewrite find_without_same. reflexivity. }
  rewrite (fetchResource_not_fresh origin1 o w Hf).
  destruct (fetchFromOrigin_configured origin1 o (LRUCache.stored (key_of o) (cache w))
              (looked_up (key_of o) w) Hc) as (url & w0 & Hcache & _ & _ & Hrun).
  cbv zeta in Hrun. rewrite Hrun, Ho1, handleResponse_cases, Hst. clear Hrun.
  replace (Response.statusCode resp1 =? 304) with false by (symmetry; apply Z.eqb_neq; lia).
  replace (400 <=? Response.statusCode resp1) with true by (symmetry; apply Z.leb_le; lia).
  eexists. split; [reflexivity|].
  assert (Hnone : LRUCache.stored (key_of o)
                    (cache (exchanged
                              (Request.mk url "GET"
                                 (conditional_headers (Some (LRUCache.value s))))
                              (origin1 (Request.mk url "GET"
                                          (conditional_headers (Some (LRUCache.value s)))))
                              w0)) = None).
  { simpl. rewrite Hcache. exact Hdropped. }
  split; [exact Hnone|].
  intros w2 Hsame Hc2.
  assert (Hs2 : LRUCache.stored (key_of o) (cache w2) = None) by (rewrite Hsame; exact Hnone).
  rewrite (fetchResource_not_fresh origin2 o w2 (stored_none_not_fresh _ _ Hs2)).
  destruct (fetchFromOrigin_configured origin2 o (LRUCache.stored (key_of o) (cache w2))
              (looked_up (key_of o) w2) Hc2) as (url2 & w3 & _ & _ & _ & Hrun2).
  cbv zeta in Hrun2. rewrite Hrun2, Ho2, handleResponse_cases, Hs2. clear Hrun2.
  replace (400 <=? Response.statusCode resp2) with true by (symmetry; apply Z.leb_le; lia).
  destruct (Response.statusCode resp2 =? 404); eexists; split; reflexivity.
Qed.

Lemma stale_entry_is_served_once_witness :
  exists w1,
    fetchResource (Sample.answers 502 [] "bad gateway") Sample.opts (Sample.stale_world false)
    = (Return (served (FetchOptions.source Sample.opts) Sample.old_entry 502 true), w1)
    /\ LRUCache.stored (key_of Sample.opts) (cache w1) = None
    /\ forall w2,
         cache w2 = cache w1 -> configured w2 = true ->
         exists e,
           fst (fetchResource (Sample.answers 503 [] "unavailable") Sample.opts w2) = Throw e
           /\ (instanceof_UpstreamNotFoundError e || instanceof_UpstreamUnavailableError e
               = true).
Proof.
  apply (stale_entry_is_served_once (Sample.answers 502 [] "bad gateway")
           (Sample.answers 503 [] "unavailable") Sample.opts (Sample.stale_world false)
           (LRUCache.mkSlot Sample.key0 Sample.old_entry 1000 1000)
           (Response.mk 502 [] "bad gateway") (Response.mk 503 [] "unavailable")).
  - reflexivity.
  - reflexivity.
  - reflexivity.
  - reflexivity.
  - intros rq. reflexivity.
  - simpl. lia.
  - intros rq. reflexivity.
  - simpl. lia.
Defined.

(** ** The identifiers *)

Lemma truthy_nullish v :
  truthy v = true -> truthy (Some (nullish v EmptyString)) = true.
Proof. destruct v as [x|]; [trivial|discriminate]. Qed.

(** The URL is made of the base of the environment and of the identifiers
    as the call leaves them memoised; the owner and the repo it leaves are
    never empty. *)
Lemma originUrl_memo path w url w1 :
  originUrl path w = (Return url, w1) ->
  truthy (cachedOwner w1) = true
  /\ truthy (cachedRepo w1) = true
  /\ url = strip_trailing_slash (nullish (lookup_env "RAW_BASE" (env w)) DEFAULT_RAW_BASE)
           ++ "/" ++ nullish (cachedOwner w1) EmptyString
           ++ "/" ++ nullish (cachedRepo w1) EmptyString
           ++ "/" ++ nullish (cachedBranch w1) EmptyString
           ++ "/" ++ path.
Proof.
  unfold_config. simpl.
  destruct (truthy (cachedOwner w)) eqn:O; simpl;
    [|destruct (truthy (lookup_env "GITHUB_OWNER" (env w))) eqn:EO; simpl; [|discriminate]];
    (destruct (truthy (cachedRepo w)) eqn:R; simpl;
     [|destruct (truthy (lookup_env "GITHUB_REPO" (env w))) eqn:ER; simpl; [|discriminate]]);
    (destruct (truthy (cachedBranch w)) eqn:B; simpl);
    intros [= <- <-]; cbn [cachedOwner cachedRepo cachedBranch env];
    (split; [first [exact O | apply truthy_nullish; exact EO]|]);
    (split; [first [exact R | apply truthy_nullish; exact ER]|]);
    reflexivity.
Qed.

(** X9.  The identifiers are read from the environment once.  After a
    call that built its URL, with a branch that is not empty, every later
    call builds the same URL from the memoised values, whatever the
    environment then says about owner, repo and branch, and writes
    nothing; the base alone is read anew each time. *)
Theorem identifiers_are_memoised (path : string) (w w1 w2 : World) (url : string) :
  originUrl path w = (Return url, w1) ->
  truthy (cachedBranch w1) = true ->
  cachedOwner w2 = cachedOwner w1 ->
  cachedRepo w2 = cachedRepo w1 ->
  cachedBranch w2 = cachedBranch w1 ->
  lookup_env "RAW_BASE" (env w2) = lookup_env "RAW_BASE" (env w) ->
  originUrl path w2 = (Return url, w2).
Proof.
  intros Hrun Hb Ho Hr Hbr Hbase.
  destruct (originUrl_memo path w url w1 Hrun) as (HO & HR & ->).
  rewrite <- Ho in HO. rewrite <- Hr in HR. rewrite <- Hbr in Hb.
  unfold_config. simpl. rewrite HO, HR, Hb. simpl.
  rewrite Hbase, Ho, Hr, Hbr. reflexivity.
Qed.

Lemma identifiers_are_memoised_witness :
  let first := originUrl "meta/lending_manifest.json" Sample.world0 in
  let changed :=
    mkWorld [("GITHUB_OWNER", "someone-else"); ("GITHUB_BRANCH", "dev")] 1 1
      (cachedOwner (snd first)) (cachedRepo (snd first)) (cachedBranch (snd first))
      (cache (snd first)) 9000 [] in
  originUrl "meta/lending_manifest.json" changed
  = (Return
       "https://raw.githubusercontent.com/test-owner/test-repo/main/meta/lending_manifest.json",
     changed).
Proof.
  intros first changed.
  apply (identifiers_are_memoised "meta/lending_manifest.json" Sample.world0 (snd first)
           changed).
  - reflexivity.
  - reflexivity.
  - reflexivity.
  - reflexivity.
  - reflexivity.
  - reflexivity.
Defined.



(** X11.  The base loses exactly one slash at its end, if it has one: a
    base written with a slash at the end gives the URLs of the base
    written without it, and a second slash stays. *)
Theorem one_trailing_slash_is_removed (s : string) :
  strip_trailing_slash (s ++ "/") = s
  /\ (strip_trailing_slash s = s \/ s = strip_trailing_slash s ++ "/").
Proof.
  split.
  - induction s as [|c s IH]; [reflexivity|].
    destruct s as [|c' s']; [reflexivity|].
    change (strip_trailing_slash (String c (String c' s') ++ "/"))
      with (String c (strip_trailing_slash (String c' s' ++ "/"))).
    rewrite IH. reflexivity.
  - induction s as [|c s IH]; [left; reflexivity|].
    destruct s as [|c' s'].
    + simpl. destruct (Ascii.eqb_spec c "/"%char) as [->|_]; [right|left]; reflexivity.
    + change (strip_trailing_slash (String c (String c' s')))
        with (String c (strip_trailing_slash (String c' s'))).
      destruct IH as [IH|IH]; [left|right].
      * rewrite IH. reflexivity.
      * rewrite IH at 1. reflexivity.
Qed.

(** ** The keys of the store *)

Lemma append_length (a x : string) :
  String.length (a ++ x) = (String.length a + String.length x)%nat.
Proof. induction a as [|c a IH]; simpl; [reflexivity|]. rewrite IH. reflexivity. Qed.

Lemma append_same_length (a a' x x' : string) :
  String.length a = String.length a' -> a ++ x = a' ++ x' -> a = a' /\ x = x'.
Proof.
  revert a'. induction a as [|c a IH]; intros [|c' a']; simpl; try discriminate.
  - auto.
  - intros [= Hlen] [= -> Heq]. destruct (IH a' Hlen Heq) as [-> ->]. auto.
Qed.

(** A text that stands before and inside what follows it is determined
    by the whole: [d ++ m ++ d ++ e] gives [d] back. *)
Lemma twice_determines (m e d d' : string) :
  d ++ m ++ d ++ e = d' ++ m ++ d' ++ e -> d = d'.
Proof.
  intros H.
  assert (Hlen : String.length d = String.length d').
  { apply (f_equal String.length) in H. rewrite !append_length in H. lia. }
  apply (append_same_length d d' _ _ Hlen H).
Qed.

(** X12.  The keys under which the two accessors store their resources
    never collide: the manifests of the two datasets have different keys,
    the key of a day's data determines the dataset and the date, whatever
    characters the date is made of, and no manifest shares its key with a
    day's data. *)
Theorem accessor_keys_are_distinct (w w' : World) :
  (forall d d', key_of (manifestOptions d w) = key_of (manifestOptions d' w') -> d = d')
  /\ (forall d date d' date',
        key_of (dailyOptions d date w) = key_of (dailyOptions d' date' w') ->
        d = d' /\ date = date')
  /\ (forall d d' date, key_of (manifestOptions d w) <> key_of (dailyOptions d' date w')).
Proof.
  unfold key_of, cacheKey, manifestOptions, dailyOptions, manifestPath, dailyPath.
  cbn [FetchOptions.source FetchOptions.path].
  split; [|split].
  - intros d d' H. destruct d, d'; simpl in H; try discriminate; reflexivity.
  - intros d date d' date' H.
    destruct d, d'; simpl in H; try discriminate; injection H as H;
      (split; [reflexivity|]).
    + exact (twice_determines ":data/lending/" ".json" date date' H).
    + exact (twice_determines ":data/borrowing/" ".json" date date' H).
  - intros d d' date. destruct d, d'; simpl; discriminate.
Qed.

(** * Properties of the route helpers *)

(** ** What an accessor makes of a fetch *)

Lemma getDailyDataset_throw origin d date w e w1 :
  fetchResource origin (dailyOptions d date w) w = (Throw e, w1) ->
  getDailyDataset origin d date w = (Throw e, w1).
Proof. intros H. unfold getDailyDataset, bind, read. rewrite H. reflexivity. Qed.

Lemma getDailyDataset_return origin d date w r w1 v :
  fetchResource origin (dailyOptions d date w) w = (Return r, w1) ->
  JSON.parse (Buffer_toString (FetchResult.buffer r)) = inl v ->
  getDailyDataset origin d date w
  = (Return (DailyResult.mk v (FetchResult.etag r) (FetchResult.lastModified r)
               (FetchResult.metrics r)), w1).
Proof.
  intros H Hv. unfold getDailyDataset, bind, read. rewrite H.
  rewrite (parseJson_valid _ _ _ _ Hv). reflexivity.
Qed.

(** A manifest that [getManifest] returns is never [null]. *)
Lemma getManifest_not_null origin d w m w1 :
  getManifest origin d w = (Return m, w1) -> ManifestResult.manifest m <> JNull.
Proof.
  unfold getManifest, bind, read.
  destruct (fetchResource origin (manifestOptions d w) w) as [[r|e] w0]; [|discriminate].
  unfold parseJson.
  destruct (JSON.parse (Buffer_toString (FetchResult.buffer r))) as [v|msg];
    [|discriminate].
  unfold ret, read_updated_at.
  destruct v; try discriminate; intros [= <- _]; discriminate.
Qed.


Lemma fetch_transport_failure origin o w msg :
  isFresh (key_of o) w = false ->
  configured w = true ->
  (forall rq, reply (origin rq) = Failed msg) ->
  exists w', fetchResource origin o w = (Throw (RequestError msg), w').
Proof.
  intros Hf Hc Ho.
  rewrite (fetchResource_not_fresh origin o w Hf).
  destruct (fetchFromOrigin_configured origin o (LRUCache.stored (key_of o) (cache w))
              (looked_up (key_of o) w) Hc) as (url & w0 & _ & _ & _ & Hrun).
  cbv zeta in Hrun. rewrite Hrun, Ho. eexists. reflexivity.
Qed.

Lemma fetch_stale origin o w c resp :
  LRUCache.stored (key_of o) (cache w) = Some c ->
  isFresh (key_of o) w = false ->
  configured w = true ->
  (forall rq, reply (origin rq) = Responded resp) ->
  400 <= Response.statusCode resp ->
  exists w',
    fetchResource origin o w
    = (Return (served (FetchOptions.source o) c (Response.statusCode resp) true), w').
Proof.
  intros Hs Hf Hc Ho Hge.
  rewrite (fetchResource_not_fresh origin o w Hf).
  destruct (fetchFromOrigin_configured origin o (LRUCache.stored (key_of o) (cache w))
              (looked_up (key_of o) w) Hc) as (url & w0 & _ & _ & _ & Hrun).
  cbv zeta in Hrun. rewrite Hrun, Ho, handleResponse_cases, Hs. clear Hrun.
  replace (Response.statusCode resp =? 304) with false by (symmetry; apply Z.eqb_neq; lia).
  replace (400 <=? Response.statusCode resp) with true by (symmetry; apply Z.leb_le; lia).
  eexists. reflexivity.
Qed.

(** ** The replies to a failed fetch *)



(** X14.  A transport failure reaches the client as a 502: when the call
    goes to the origin and gets no response, [safeGetDaily] logs the
    transport's error and replies 502 "Failed to fetch dataset", also when
    the store holds an overdue entry for the day. *)
Theorem transport_failure_is_a_502
    (origin : Origin) (dataset : Dataset) (date : string) (h : Http.t) (w : World)
    (msg : string) :
  isFresh (key_of (dailyOptions dataset date w)) w = false ->
  configured w = true ->
  (forall rq, reply (origin rq) = Failed msg) ->
  exists w',
    safeGetDaily origin dataset date h w
    = (Return (None,
               sendError (Http.logged h (LogError (RequestError msg) "Failed to fetch dataset"))
                 502 "Failed to fetch dataset"), w').
Proof.
  intros Hf Hc Ho.
  destruct (fetch_transport_failure origin (dailyOptions dataset date w) w msg Hf Hc Ho)
    as (w' & Hrun).
  exists w'. unfold safeGetDaily, try_catch, bind.
  rewrite (getDailyDataset_throw _ _ _ _ _ _ Hrun). reflexivity.
Qed.

Lemma transport_failure_is_a_502_witness :
  LRUCache.stored Sample.key0 (cache (Sample.stale_world true)) = Some Sample.old_entry
  /\ exists w',
       safeGetDaily Sample.unreachable lending "2025-09-30" Sample.get_request
         (Sample.stale_world true)
       = (Return (None,
                  sendError (Http.logged Sample.get_request
                               (LogError (RequestError "connect ECONNREFUSED")
                                  "Failed to fetch dataset"))
                    502 "Failed to fetch dataset"), w').
Proof.
  split; [reflexivity|].
  apply (transport_failure_is_a_502 Sample.unreachable lending "2025-09-30"
           Sample.get_request (Sample.stale_world true) "connect ECONNREFUSED").
  - reflexivity.
  - reflexivity.
  - intros rq. reflexivity.
Defined.

(** X15.  A manifest file that is not valid JSON, or that is the JSON
    value [null], reaches the client as a 502: [safeGetManifest] logs the
    error, replies 502 "Failed to fetch manifest" and returns [null]. *)
Theorem unusable_manifest_is_a_502
    (origin : Origin) (dataset : Dataset) (h : Http.t) (w w1 : World) (r : FetchResult.t) :
  fetchResource origin (manifestOptions dataset w) w = (Return r, w1) ->
  (JSON.parse (Buffer_toString (FetchResult.buffer r)) = inl JNull
   \/ exists message, JSON.parse (Buffer_toString (FetchResult.buffer r)) = inr message) ->
  exists e,
    safeGetManifest origin dataset h w
    = (Return (None,
               sendError (Http.logged h (LogError e "Failed to fetch manifest"))
                 502 "Failed to fetch manifest"), w1)
    /\ instanceof_UpstreamNotFoundError e = false
    /\ instanceof_UpstreamUnavailableError e = false.
Proof.
  intros Hrun [Hnull | [message Hbad]].
  - exists (TypeError "Cannot read properties of null (reading 'updated_at')").
    unfold safeGetManifest, try_catch, getManifest, bind, read. rewrite Hrun.
    rewrite (parseJson_valid _ _ _ _ Hnull). repeat split.
  - eexists.
    unfold safeGetManifest, try_catch, getManifest, bind, read. rewrite Hrun.
    rewrite (parseJson_invalid _ _ _ _ Hbad). repeat split.
Qed.

Lemma unusable_manifest_is_a_502_witness :
  exists e,
    fst (safeGetManifest (Sample.answers 200 [] "null") lending Sample.get_request
           Sample.world0)
    = Return (None,
              sendError (Http.logged Sample.get_request
                           (LogError e "Failed to fetch manifest"))
                502 "Failed to fetch manifest").
Proof.
  destruct (unusable_manifest_is_a_502 (Sample.answers 200 [] "null") lending
              Sample.get_request Sample.world0
              (snd (fetchResource (Sample.answers 200 [] "null")
                      (manifestOptions lending Sample.world0) Sample.world0))
              (FetchResult.mk (Buffer_from "null") None None None
                 (GithubFetchMetrics.mk false (Some 200) false "manifest:lending"))
              eq_refl (or_introl eq_refl)) as (e & Hrun & _).
  exists e. rewrite Hrun. reflexivity.
Defined.

(** X16.  An outage of the origin is not seen by the client while the
    store holds a copy that parses: with an overdue entry for the day and
    a status of 400 or more from the origin, [safeGetDaily] returns the
    rows of the stored copy with its entity tag and the provenance
    cacheHit = true, servedStale = true, and sends and logs nothing. *)
Theorem outage_is_hidden_by_stale_copy
    (origin : Origin) (dataset : Dataset) (date : string) (h : Http.t) (w : World)
    (c : CacheEntry.t) (resp : Response.t) (rows : JSValue) :
  LRUCache.stored (key_of (dailyOptions dataset date w)) (cache w) = Some c ->
  isFresh (key_of (dailyOptions dataset date w)) w = false ->
  configured w = true ->
  (forall rq, reply (origin rq) = Responded resp) ->
  400 <= Response.statusCode resp ->
  JSON.parse (Buffer_toString (CacheEntry.body c)) = inl rows ->
  exists w',
    safeGetDaily origin dataset date h w
    = (Return (Some (DailyResult.mk rows (CacheEntry.etag c) (CacheEntry.lastModified c)
                       (GithubFetchMetrics.mk true (Some (Response.statusCode resp)) true
                          (Dataset_name dataset ++ ":" ++ date))),
               h), w').
Proof.
  intros Hs Hf Hc Ho Hge Hrows.
  destruct (fetch_stale origin (dailyOptions dataset date w) w c resp Hs Hf Hc Ho Hge)
    as (w' & Hrun).
  exists w'. unfold safeGetDaily, try_catch, bind.
  rewrite (getDailyDataset_return _ _ _ _ _ _ rows Hrun Hrows). reflexivity.
Qed.

Lemma outage_is_hidden_by_stale_copy_witness :
  exists w',
    safeGetDaily (Sample.answers 502 [] "bad gateway") lending "2025-09-30"
      Sample.get_request (Sample.stale_world false)
    = (Return (Some (DailyResult.mk (JArray [JObject [("protocol", JString "Vesu")]])
                       (Some "etag-1") None
                       (GithubFetchMetrics.mk true (Some 502) true "lending:2025-09-30")),
               Sample.get_request), w').
Proof.
  apply (outage_is_hidden_by_stale_copy (Sample.answers 502 [] "bad gateway") lending
           "2025-09-30" Sample.get_request (Sample.stale_world false) Sample.old_entry
           (Response.mk 502 [] "bad gateway")
           (JArray [JObject [("protocol", JString "Vesu")]])).
  - reflexivity.
  - reflexivity.
  - reflexivity.
  - intros rq. reflexivity.
  - simpl. lia.
  - reflexivity.
Defined.

(** ** The metrics of a request *)

(** X17.  Recording the provenance of a fetch result adds exactly one
    element to each of the three lists of the request: the result of
    [fetchResource] always has an upstream status, so the lists of hits,
    statuses and sources stay in step; the reply and the log are not
    touched. *)
Theorem metrics_grow_in_step
    (origin : Origin) (o : FetchOptions.t) (w w' : World) (r : FetchResult.t)
    (h : Http.t) (ctx : UpstreamMetrics.t) :
  fetchResource origin o w = (Return r, w') ->
  Http.upstreamMetrics h = Some ctx ->
  exists status,
    GithubFetchMetrics.upstreamStatus (FetchResult.metrics r) = Some status
    /\ recordMetrics h (FetchResult.metrics r)
       = Http.mk (Http.method h) (Http.ifNoneMatch h)
           (Some (UpstreamMetrics.mk
                    (UpstreamMetrics.cacheHits ctx
                     ++ [GithubFetchMetrics.cacheHit (FetchResult.metrics r)])
                    (UpstreamMetrics.statuses ctx ++ [status])
                    (UpstreamMetrics.sources ctx ++ [FetchOptions.source o])))
           (Http.log h) (Http.reply h).
Proof.
  intros Hrun Hctx. unfold recordMetrics. rewrite Hctx.
  destruct (fetchResource_returns origin o w w' r Hrun)
    as [(c & _ & _ & -> & _)
       | (url & resp & _ & _ & _ & _ & _ &
          [(c & _ & _ & -> & _) | [(c & _ & _ & -> & _) | (_ & _ & -> & _)]])];
    eexists; split; reflexivity.
Qed.

Lemma metrics_grow_in_step_witness :
  exists status,
    GithubFetchMetrics.upstreamStatus
      (FetchResult.metrics (served "lending:2025-09-30" Sample.old_entry 502 true))
    = Some status
    /\ recordMetrics Sample.get_request
         (FetchResult.metrics (served "lending:2025-09-30" Sample.old_entry 502 true))
       = Http.mk "GET" None
           (Some (UpstreamMetrics.mk [true] [status] ["lending:2025-09-30"])) [] [].
Proof.
  apply (metrics_grow_in_step (Sample.answers 502 [] "bad gateway") Sample.opts
           (Sample.stale_world true)
           (snd (fetchResource (Sample.answers 502 [] "bad gateway") Sample.opts
                   (Sample.stale_world true)))
           (served "lending:2025-09-30" Sample.old_entry 502 true)
           Sample.get_request (UpstreamMetrics.mk [] [] [])).
  - reflexivity.
  - reflexivity.
Defined.

(** ** Handlers answer once *)







(** One [try] block of the health route never throws and never touches
    the reply; it reports success exactly when [getManifest] returned. *)
Lemma healthManifest_outcome origin d message h w :
  exists u ok h1 w1,
    healthManifest origin d message h w = (Return (u, ok, h1), w1)
    /\ Http.reply h1 = Http.reply h
    /\ Http.method h1 = Http.method h
    /\ (ok = true <-> exists m, getManifest origin d w = (Return m, w1))
    /\ snd (getManifest origin d w) = w1.
Proof.
  unfold healthManifest, try_catch, bind.
  destruct (getManifest origin d w) as [[m|e] w1] eqn:G.
  - pose proof (getManifest_not_null origin d w m w1 G) as Hnn.
    assert (Hrec : forall hh mm, Http.reply (recordMetrics hh mm) = Http.reply hh
                                 /\ Http.method (recordMetrics hh mm) = Http.method hh).
    { intros hh mm. unfold recordMetrics. destruct (Http.upstreamMetrics hh); auto. }
    destruct (Hrec h (ManifestResult.metrics m)) as [Hr Hm].
    destruct (ManifestResult.manifest m); try contradiction;
      (eexists _, true, _, _; split; [reflexivity|];
       repeat split; try assumption; try discriminate; eauto).
  - eexists _, false, _, _. split; [reflexivity|].
    repeat split; try discriminate.
    intros [m Hm]. discriminate.
Qed.

(** X19.  The health route always answers, once, with 200 or 206 and
    never with an error: the code is 200 exactly when both manifests
    could be fetched and read, the borrowing one after the lending one,
    and 206 in every other case, also when neither can; unless the method
    is HEAD the body says [ok: true] in all these cases. *)
Theorem health_always_answers (origin : Origin) (h : Http.t) (w : World) :
  exists h' w' code body,
    health origin h w = (Return h', w')
    /\ Http.reply h'
       = (Http.reply h
          ++ [Header "Access-Control-Allow-Origin" "*";
              Header "Cache-Control" "public, max-age=300, stale-while-revalidate=86400";
              ContentType "application/json; charset=utf-8";
              Code code;
              Send body])%list
    /\ (code = 200 \/ code = 206)
    /\ (code = 200 <->
        exists m1 w1 m2,
          getManifest origin lending w = (Return m1, w1)
          /\ getManifest origin borrowing w1 = (Return m2, w'))
    /\ (String.eqb (Http.method h) "HEAD" = true -> body = None)
    /\ (String.eqb (Http.method h) "HEAD" = false ->
        exists l b, body = Some (HealthBody true l b)).
Proof.
  unfold health, bind.
  destruct (healthManifest_outcome origin lending "lending manifest unavailable for health"
              h w) as (u1 & ok1 & h1 & w1 & Hrun1 & Hr1 & Hm1 & Hok1 & Hw1).
  rewrite Hrun1.
  destruct (healthManifest_outcome origin borrowing
              "borrowing manifest unavailable for health" h1 w1)
    as (u2 & ok2 & h2 & w2 & Hrun2 & Hr2 & Hm2 & Hok2 & Hw2).
  rewrite Hrun2.
  cbn [Http.method Http.call]. rewrite Hm2, Hm1.
  assert (Hcode :
    (if ok1 && ok2 then 200 else 206) = 200 <->
    exists m1 w1' m2,
      getManifest origin lending w = (Return m1, w1')
      /\ getManifest origin borrowing w1' = (Return m2, w2)).
  { split.
    - destruct ok1; [|discriminate]. destruct ok2; [|discriminate]. intros _.
      destruct (proj1 Hok1 eq_refl) as [m1 G1]. destruct (proj1 Hok2 eq_refl) as [m2 G2].
      exists m1, w1, m2. split; assumption.
    - intros (m1 & w1' & m2 & G1 & G2).
      assert (w1' = w1) by (rewrite <- Hw1, G1; reflexivity). subst w1'.
      rewrite (proj2 Hok1 (ex_intro _ m1 G1)), (proj2 Hok2 (ex_intro _ m2 G2)).
      reflexivity. }
  destruct (String.eqb (Http.method h) "HEAD") eqn:Hhead.
  - eexists _, _, _, _. split; [reflexivity|].
    cbn [Http.reply Http.call]. rewrite Hr2, Hr1, <- List.app_assoc.
    split; [reflexivity|]. split; [destruct (ok1 && ok2); auto|].
    split; [exact Hcode|]. split; [reflexivity|discriminate].
  - eexists _, _, _, _. split; [reflexivity|].
    cbn [Http.reply Http.call]. rewrite Hr2, Hr1, <- List.app_assoc.
    split; [reflexivity|]. split; [destruct (ok1 && ok2); auto|].
    split; [exact Hcode|]. split; [discriminate|eauto].
Qed.

(** With neither manifest reachable the route still answers 206 and
    [ok: true], and logs two warnings. *)
Example health_when_nothing_is_reachable :
  let h' := match fst (health Sample.unreachable Sample.get_request Sample.world0) with
            | Return h' => h'
            | Throw _ => Sample.get_request
            end in
  Http.reply h'
  = [Header "Access-Control-Allow-Origin" "*";
     Header "Cache-Control" "public, max-age=300, stale-while-revalidate=86400";
     ContentType "application/json; charset=utf-8";
     Code 206;
     Send (Some (HealthBody true None None))]
  /\ List.length (Http.log h') = 2%nat.
Proof. split; reflexivity. Qed.

(** ** Ranges of dates *)

Section Order.

Lemma units_lt_irrefl x : units_lt x x = false.
Proof.
  induction x as [|a x IH]; [reflexivity|].
  simpl. rewrite N.ltb_irrefl. exact IH.
Qed.

Lemma units_le_trans x y z :
  units_lt y x = false -> units_lt z y = false -> units_lt z x = false.
Proof.
  revert y z. induction x as [|a x IH]; intros [|b y] [|c z]; simpl; try congruence.
  destruct (b <? a)%N eqn:Eba; [discriminate|].
  destruct (a <? b)%N eqn:Eab.
  - intros _.
    destruct (c <? b)%N eqn:Ecb; [discriminate|].
    destruct (b <? c)%N eqn:Ebc; intros H;
      apply N.ltb_lt in Eab; apply N.ltb_ge in Eba, Ecb;
      assert (Hca : (c <? a)%N = false) by (apply N.ltb_ge; lia);
      assert (Hac : (a <? c)%N = true) by (apply N.ltb_lt; lia);
      rewrite Hca, Hac; reflexivity.
  - intros Hyx.
    apply N.ltb_ge in Eba, Eab. assert (a = b) by lia. subst b.
    destruct (c <? a)%N; [discriminate|].
    destruct (a <? c)%N; [reflexivity|].
    apply IH. exact Hyx.
Qed.

Lemma js_le_refl a : js_le a a = true.
Proof. unfold js_le, js_lt. rewrite units_lt_irrefl. reflexivity. Qed.

Lemma js_le_trans a b c : js_le a b = true -> js_le b c = true -> js_le a c = true.
Proof.
  unfold js_le, js_lt. intros Hab Hbc.
  apply negb_true_iff in Hab, Hbc. apply negb_true_iff.
  eapply units_le_trans; eassumption.
Qed.

End Order.

Lemma filter_all {A} (f : A -> bool) (l : list A) :
  (forall x, In x l -> f x = true) -> List.filter f l = l.
Proof.
  induction l as [|a l IH]; intros H; [reflexivity|].
  simpl. rewrite (H a (or_introl eq_refl)). rewrite IH; [reflexivity|].
  intros x Hx. apply H. right. exact Hx.
Qed.

Lemma hd_rev_cons {A} (a : A) (l : list A) :
  List.hd_error (List.rev (a :: l))
  = match List.hd_error (List.rev l) with
    | Some x => Some x
    | None => Some a
    end.
Proof.
  simpl. destruct (List.rev l) as [|x r] eqn:E; reflexivity.
Qed.

(** In an ascending list every date lies between the first and the
    last. *)
Lemma ascending_bounds (dates : list string) :
  StronglySorted (fun a b => js_le a b = true) dates ->
  forall d, In d dates ->
    (forall f, List.hd_error dates = Some f -> js_le f d = true)
    /\ (forall t, List.hd_error (List.rev dates) = Some t -> js_le d t = true).
Proof.
  induction 1 as [|a l Hs IH Hall]; intros d Hd; [contradiction|].
  rewrite List.Forall_forall in Hall. split.
  - intros f [= <-]. destruct Hd as [<-|Hd]; [apply js_le_refl|apply Hall, Hd].
  - intros t Ht. rewrite hd_rev_cons in Ht.
    destruct (List.hd_error (List.rev l)) as [x|] eqn:E.
    + injection Ht as <-.
      destruct Hd as [<-|Hd].
      * apply Hall. apply List.in_rev.
        destruct (List.rev l) as [|y r]; [discriminate|].
        injection E as ->. left. reflexivity.
      * apply (IH d Hd). reflexivity.
    + injection Ht as <-.
      destruct l as [|b l'].
      * destruct Hd as [<-|[]]. apply js_le_refl.
      * exfalso. rewrite hd_rev_cons in E.
        destruct (List.hd_error (List.rev l')); discriminate.
Qed.

(** X20.  When the query gives no bound and the dates of the manifest
    ascend, the range of [handleAll] runs from the first date to the last
    and every date of the manifest is fetched, in the order of the
    manifest. *)
Theorem ascending_manifest_is_fetched_whole (dates : list string) :
  Sorted (fun a b => js_le a b = true) dates ->
  resolveRange None None dates
  = Some (List.hd_error dates, List.hd_error (List.rev dates))
  /\ datesInRange (List.hd_error dates, List.hd_error (List.rev dates)) dates = dates.
Proof.
  intros Hsorted.
  assert (Hstrong : StronglySorted (fun a b => js_le a b = true) dates).
  { apply Sorted_StronglySorted; [|exact Hsorted].
    intros a b c. apply js_le_trans. }
  pose proof (ascending_bounds dates Hstrong) as Hb.
  split.
  - unfold resolveRange.
    destruct (List.hd_error dates) as [f|] eqn:Ef; [|reflexivity].
    destruct (List.hd_error (List.rev dates)) as [t|] eqn:Et;
      [|rewrite andb_false_r; reflexivity].
    assert (Hft : js_le f t = true).
    { assert (Hin : In f dates) by (destruct dates; [discriminate|injection Ef as ->; left; reflexivity]).
      apply (Hb f Hin). reflexivity. }
    unfold js_le in Hft. apply negb_true_iff in Hft. simpl. rewrite Hft.
    rewrite andb_false_r. reflexivity.
  - unfold datesInRange. apply filter_all. intros d Hd.
    destruct (Hb d Hd) as [Hlow Hhigh].
    unfold inRange. cbn [fst snd].
    destruct (List.hd_error dates) as [f|]; simpl.
    + pose proof (Hlow f eq_refl) as Hf. unfold js_le in Hf. apply negb_true_iff in Hf.
      rewrite Hf, andb_false_r.
      destruct (List.hd_error (List.rev dates)) as [t|]; simpl; [|reflexivity].
      pose proof (Hhigh t eq_refl) as Ht. unfold js_le in Ht. apply negb_true_iff in Ht.
      rewrite Ht, andb_false_r. reflexivity.
    + destruct (List.hd_error (List.rev dates)) as [t|]; simpl; [|reflexivity].
      pose proof (Hhigh t eq_refl) as Ht. unfold js_le in Ht. apply negb_true_iff in Ht.
      rewrite Ht, andb_false_r. reflexivity.
Qed.

Lemma ascending_manifest_is_fetched_whole_witness :
  resolveRange None None ["2025-09-28"; "2025-09-29"; "2025-09-30"]
  = Some (Some "2025-09-28", Some "2025-09-30")
  /\ datesInRange (Some "2025-09-28", Some "2025-09-30")
       ["2025-09-28"; "2025-09-29"; "2025-09-30"]
     = ["2025-09-28"; "2025-09-29"; "2025-09-30"].
Proof.
  apply (ascending_manifest_is_fetched_whole ["2025-09-28"; "2025-09-29"; "2025-09-30"]).
  repeat constructor.
Defined.

(** A manifest whose dates descend, asked without bounds, is refused as
    if the client had given the bounds the wrong way round. *)
Example descending_manifest_is_refused :
  resolveRange None None ["2025-09-30"; "2025-09-29"] = None.
Proof. reflexivity. Qed.

(** X21.  Whatever the order of the manifest, [handleAll] fetches only
    dates of the manifest that lie within the range [resolveRange] gave:
    not before a lower bound that is not empty, not after an upper bound
    that is not empty; a bound of the query is used as it is, and when
    both bounds are not empty the lower one is not after the upper one. *)
Theorem fetched_dates_lie_in_range
    (qfrom qto : option string) (dates : list string)
    (range : option string * option string) (date : string) :
  resolveRange qfrom qto dates = Some range ->
  In date (datesInRange range dates) ->
  In date dates
  /\ (forall f, qfrom = Some f -> fst range = Some f)
  /\ (forall t, qto = Some t -> snd range = Some t)
  /\ (forall f, fst range = Some f -> f <> EmptyString -> js_le f date = true)
  /\ (forall t, snd range = Some t -> t <> EmptyString -> js_le date t = true)
  /\ (forall f t, fst range = Some f -> snd range = Some t ->
                  f <> EmptyString -> t <> EmptyString -> js_le f t = true).
Proof.
  unfold resolveRange, datesInRange. intros Hrange Hin.
  apply List.filter_In in Hin as [Hin Hok].
  set (from := match qfrom with Some f => Some f | None => List.hd_error dates end) in *.
  set (to := match qto with Some t => Some t | None => List.hd_error (List.rev dates) end)
    in *.
  destruct (truthy from && truthy to
            && js_lt (nullish to EmptyString) (nullish from EmptyString)) eqn:Hcheck;
    [discriminate|].
  injection Hrange as <-. cbn [fst snd] in *.
  assert (Htruthy : forall x, x <> EmptyString -> truthy (Some x) = true).
  { intros x Hx. simpl. destruct (String.eqb_spec x EmptyString); [contradiction|reflexivity]. }
  unfold inRange in Hok.
  split; [exact Hin|]. split; [|split; [|split; [|split]]].
  - intros f ->. reflexivity.
  - intros t ->. reflexivity.
  - intros f Hf Hne. rewrite Hf in Hok. rewrite (Htruthy f Hne) in Hok. simpl in Hok.
    unfold js_le. destruct (js_lt date f); [discriminate|reflexivity].
  - intros t Ht Hne. rewrite Ht in Hok. rewrite (Htruthy t Hne) in Hok.
    unfold js_le.
    destruct (truthy from && js_lt date (nullish from EmptyString)); [discriminate|].
    simpl in Hok. destruct (js_lt t date); [discriminate|reflexivity].
  - intros f t Hf Ht Hnf Hnt. rewrite Hf, Ht in Hcheck.
    rewrite (Htruthy f Hnf), (Htruthy t Hnt) in Hcheck. simpl in Hcheck.
    unfold js_le. rewrite Hcheck. reflexivity.
Qed.

Lemma fetched_dates_lie_in_range_witness :
  datesInRange (Some "2025-09-29", Some "2025-09-29")
    ["2025-09-28"; "2025-09-30"; "2025-09-29"] = ["2025-09-29"]
  /\ In "2025-09-29" ["2025-09-28"; "2025-09-30"; "2025-09-29"]
  /\ js_le "2025-09-29" "2025-09-29" = true.
Proof.
  split; [reflexivity|].
  destruct (fetched_dates_lie_in_range (Some "2025-09-29") None
              ["2025-09-28"; "2025-09-30"; "2025-09-29"]
              (Some "2025-09-29", Some "2025-09-29") "2025-09-29" eq_refl
              (or_introl eq_refl)) as (Hin & _ & _ & Hlow & _).
  split; [exact Hin|].
  apply (Hlow "2025-09-29" eq_refl). discriminate.
Defined.

(** ** Pages *)

Lemma firstn_add {A} (a b : nat) (l : list A) :
  List.firstn (a + b) l = (List.firstn a l ++ List.firstn b (List.skipn a l))%list.
Proof.
  revert l. induction a as [|a IH]; intros l; [reflexivity|].
  destruct l as [|x l]; simpl.
  - rewrite List.firstn_nil. reflexivity.
  - rewrite IH. reflexivity.
Qed.

(** A slice that starts at or after the beginning is a run of the list:
    so many elements, after so many skipped. *)
Lemma slice_run {A} (start count : Z) (l : list A) :
  0 <= start -> 0 <= count ->
  slice start (start + count) l
  = List.firstn (Z.to_nat count) (List.skipn (Z.to_nat start) l).
Proof.
  intros Hs Hc. unfold slice.
  replace (start <? 0) with false by (symmetry; apply Z.ltb_ge; lia).
  replace (start + count <? 0) with false by (symmetry; apply Z.ltb_ge; lia).
  set (len := Z.of_nat (List.length l)).
  destruct (Z.le_gt_cases start len) as [Hle|Hgt].
  - rewrite (Z.min_l start len) by lia.
    assert (Hlen : List.length (List.skipn (Z.to_nat start) l)
                   = Z.to_nat (len - start)).
    { rewrite List.length_skipn. unfold len. lia. }
    destruct (Z.le_gt_cases count (len - start)) as [Hin|Hout].
    + rewrite (Z.min_l (start + count) len) by lia.
      replace (start + count - start) with count by lia. reflexivity.
    + rewrite (Z.min_r (start + count) len) by lia.
      rewrite (List.firstn_all2 (n := Z.to_nat (len - start))) by lia.
      rewrite (List.firstn_all2 (n := Z.to_nat count)) by lia.
      reflexivity.
  - rewrite (Z.min_r start len) by lia.
    rewrite (Z.min_r (start + count) len) by lia.
    replace (len - len) with 0 by lia.
    rewrite (List.skipn_all2 (n := Z.to_nat start)) by (unfold len in Hgt; lia).
    rewrite List.firstn_nil. reflexivity.
Qed.

(** X22.  A page of [handleAll], for a page number and a page size of at
    least 1, is the run of at most [perPage] rows that follows the rows of
    the pages before it, in the order of the days and of the rows within
    a day; it is empty when the pages before it already hold all the
    rows. *)
Theorem page_is_a_run_of_rows
    {A : Type} (page perPage : Z) (rowsByDate : list (list A)) :
  1 <= page ->
  1 <= perPage ->
  paginated (Some page) (Some perPage) rowsByDate
  = List.firstn (Z.to_nat perPage)
      (List.skipn (Z.to_nat ((page - 1) * perPage)) (List.concat rowsByDate))
  /\ (List.length (paginated (Some page) (Some perPage) rowsByDate) <= Z.to_nat perPage)%nat
  /\ (Z.of_nat (List.length (List.concat rowsByDate)) <= (page - 1) * perPage ->
      paginated (Some page) (Some perPage) rowsByDate = []).
Proof.
  intros Hp Hpp.
  assert (Hrun : paginated (Some page) (Some perPage) rowsByDate
                 = List.firstn (Z.to_nat perPage)
                     (List.skipn (Z.to_nat ((page - 1) * perPage))
                        (List.concat rowsByDate))).
  { unfold paginated. cbn [nullish]. apply slice_run; nia. }
  split; [exact Hrun|]. split.
  - rewrite Hrun. apply List.firstn_le_length.
  - intros Hall. rewrite Hrun.
    rewrite List.skipn_all2 by lia. apply List.firstn_nil.
Qed.

Lemma page_is_a_run_of_rows_witness :
  paginated (Some 2) (Some 2) [[1; 2; 3]; []; [4; 5]]
  = List.firstn 2 (List.skipn 2 [1; 2; 3; 4; 5])
  /\ Nat.le (List.length (paginated (Some 2) (Some 2) [[1; 2; 3]; []; [4; 5]])) 2
  /\ (5 <= (2 - 1) * 2 -> paginated (Some 2) (Some 2) [[1; 2; 3]; []; [4; 5]] = []).
Proof.
  apply (page_is_a_run_of_rows 2 2 [[1; 2; 3]; []; [4; 5]]); lia.
Defined.

(** X23.  The pages of one size tile the rows: the pages 1 to [n], one
    after the other, are the first [n * perPage] rows, each once and in
    order; so they are all the rows as soon as [n] pages can hold them. *)
Theorem pages_tile_the_rows
    {A : Type} (perPage : Z) (n : nat) (rowsByDate : list (list A)) :
  1 <= perPage ->
  List.concat (List.map (fun p => paginated (Some p) (Some perPage) rowsByDate) (pages n))
  = List.firstn (n * Z.to_nat perPage) (List.concat rowsByDate)
  /\ ((List.length (List.concat rowsByDate) <= n * Z.to_nat perPage)%nat ->
      List.concat (List.map (fun p => paginated (Some p) (Some perPage) rowsByDate)
                     (pages n))
      = List.concat rowsByDate).
Proof.
  intros Hpp.
  assert (Htile :
    List.concat (List.map (fun p => paginated (Some p) (Some perPage) rowsByDate) (pages n))
    = List.firstn (n * Z.to_nat perPage) (List.concat rowsByDate)).
  { induction n as [|n IH]; [reflexivity|].
    unfold pages in *. rewrite List.seq_S, !List.map_app, List.concat_app, IH.
    cbn [List.map List.concat Nat.add]. rewrite List.app_nil_r.
    destruct (page_is_a_run_of_rows (Z.of_nat n + 1) perPage rowsByDate) as (Hrun & _);
      [lia|lia|].
    rewrite Hrun.
    replace (Z.to_nat ((Z.of_nat n + 1 - 1) * perPage)) with (n * Z.to_nat perPage)%nat
      by (replace (Z.of_nat n + 1 - 1) with (Z.of_nat n) by lia;
          rewrite Z2Nat.inj_mul by lia; rewrite Nat2Z.id; reflexivity).
    replace (S n * Z.to_nat perPage)%nat with (n * Z.to_nat perPage + Z.to_nat perPage)%nat
      by lia.
    symmetry. apply firstn_add. }
  split; [exact Htile|].
  intros Hall. rewrite Htile. apply List.firstn_all2. exact Hall.
Qed.

Lemma pages_tile_the_rows_witness :
  List.concat (List.map (fun p => paginated (Some p) (Some 2) [[1; 2; 3]; []; [4; 5]])
                 (pages 3))
  = [1; 2; 3; 4; 5].
Proof.
  destruct (pages_tile_the_rows 2 3 [[1; 2; 3]; []; [4; 5]]) as (_ & Hall); [lia|].
  apply Hall. simpl. lia.
Defined.
